(** * StationBoard: the refresh and render logic of the departure board

    A shallow embedding of [StationBoard.py]: the values the web service
    hands over, the Tkinter widgets the program writes to, the function
    [DisplayApp.display_info], the service call [getServiceInfo], the two
    timer callbacks [update_display] and [update_time], and the event
    handlers, followed by the properties of the refresh cycle. *)

From stdpp Require Import base option list strings gmap.

Open Scope string_scope.
Open Scope nat_scope.
Set Warnings "-register-all".

(** ** Python values *)

(** The response of the service behaves like nested dictionaries and lists
    of strings, booleans, numbers and [None].  A dictionary is kept as an
    association list; a lookup takes the first binding of a key. *)
Inductive pyval :=
| PyNone
| PyBool (b : bool)
| PyInt (z : Z)
| PyStr (s : string)
| PyList (l : list pyval)
| PyDict (d : list (string * pyval)).

Definition pydict : Type := list (string * pyval).

(** The exceptions that the modelled code can meet.  [KeyError] carries the
    text that [str(ke)] yields, which is the [repr] of the missing key. *)
Inductive exn :=
| KeyError (shown : string)
| IndexError
| TypeError.

Inductive res (A : Type) :=
| Ok (a : A)
| Raise (e : exn).
Arguments Ok {A} a.
Arguments Raise {A} e.

Global Instance res_ret : MRet res := λ A a, Ok a.
Global Instance res_bind : MBind res := λ A B f r,
  match r with
  | Ok a => f a
  | Raise e => Raise e
  end.

Fixpoint dict_get (d : pydict) (k : string) : option pyval :=
  match d with
  | [] => None
  | (k', v) :: d' => if String.eqb k' k then Some v else dict_get d' k
  end.

(** [repr] of a key.  All keys the program looks up are literals without
    quotes, backslashes or control characters, for which [repr] only adds
    the single quotes. *)
Definition repr_key (k : string) : string := "'" +:+ k +:+ "'".

(** [v[k]] for a string key [k]. *)
Definition getitem (v : pyval) (k : string) : res pyval :=
  match v with
  | PyDict d =>
      match dict_get d k with
      | Some x => Ok x
      | None => Raise (KeyError (repr_key k))
      end
  | _ => Raise TypeError
  end.

(** [v[0]]. *)
Definition getitem0 (v : pyval) : res pyval :=
  match v with
  | PyList (x :: _) => Ok x
  | PyList [] => Raise IndexError
  | PyStr (String c _) => Ok (PyStr (String c EmptyString))
  | PyStr EmptyString => Raise IndexError
  | PyDict _ => Raise (KeyError "0")
  | _ => Raise TypeError
  end.

Fixpoint chars (s : string) : list pyval :=
  match s with
  | EmptyString => []
  | String c s' => PyStr (String c EmptyString) :: chars s'
  end.

(** The elements a [for] loop or a generator runs over. *)
Definition py_iter (v : pyval) : res (list pyval) :=
  match v with
  | PyList l => Ok l
  | PyStr s => Ok (chars s)
  | PyDict d => Ok (map (λ kv, PyStr kv.1) d)
  | _ => Raise TypeError
  end.

(** Truth value of a value used as a condition. *)
Definition truthy (v : pyval) : bool :=
  match v with
  | PyNone => false
  | PyBool b => b
  | PyInt z => negb (Z.eqb z 0)
  | PyStr s => negb (String.eqb s "")
  | PyList l => match l with [] => false | _ => true end
  | PyDict d => match d with [] => false | _ => true end
  end.

(** [v is None], also [v == None] on these values. *)
Definition is_None (v : pyval) : bool :=
  match v with PyNone => true | _ => false end.

(** [sep.join(items)]: every item has to be a string. *)
Fixpoint str_join (sep : string) (items : list pyval) : res string :=
  match items with
  | [] => Ok ""
  | [PyStr s] => Ok s
  | PyStr s :: rest =>
      match str_join sep rest with
      | Ok t => Ok (s +:+ sep +:+ t)
      | Raise e => Raise e
      end
  | _ => Raise TypeError
  end.

(** ** State and exceptions *)

(** A computation over a mutable state [S] that returns or raises.  The
    state is returned in both cases: what was written before an exception
    stays written. *)
Definition M (S A : Type) : Type := S → res A * S.

Definition ret {S A} (a : A) : M S A := λ s, (Ok a, s).

Definition bind {S A B} (m : M S A) (f : A → M S B) : M S B :=
  λ s, match m s with
       | (Ok a, s') => f a s'
       | (Raise e, s') => (Raise e, s')
       end.

Definition raise {S A} (e : exn) : M S A := λ s, (Raise e, s).

Definition gets {S A} (f : S → A) : M S A := λ s, (Ok (f s), s).

Definition modify {S} (f : S → S) : M S unit := λ s, (Ok tt, f s).

(** A pure lookup inside a computation. *)
Definition lift {S A} (r : res A) : M S A := λ s, (r, s).

(** [try: body  except KeyError as ke: handler(str(ke))] *)
Definition try_except_KeyError {S} (body : M S unit) (handler : string → M S unit)
  : M S unit :=
  λ s, match body s with
       | (Raise (KeyError shown), s') => handler shown s'
       | r => r
       end.

Declare Scope py_scope.
Delimit Scope py_scope with py.
Notation "x <- m ;; k" := (bind m (λ x, k))
  (at level 100, m at next level, k at level 200, right associativity) : py_scope.
Notation "m ;; k" := (bind m (λ _, k))
  (at level 100, k at level 200, right associativity) : py_scope.
Notation "'when' b 'then' m" := (if b then m else ret tt)
  (at level 100, b at next level, m at level 200) : py_scope.

(** ** Widgets *)

(** A label: the text it shows and its place in the grid.  [grid_info] is
    [None] when the label is not on the grid, which is when Tkinter's
    [grid_info()] returns the empty dictionary. *)
Record Label := mkLabel {
  text : pyval;
  grid_info : option (nat * nat)   (* row, column *)
}.

Definition new_Label : Label := mkLabel (PyStr "") None.

(** [lbl.config(text=v)].  Tkinter drops an option whose value is [None],
    so the text stays as it was in that case. *)
Definition Label_config (v : pyval) (l : Label) : Label :=
  match v with
  | PyNone => l
  | _ => mkLabel v (grid_info l)
  end.

(** [lbl.grid(row=r, column=c)] *)
Definition Label_grid (r c : nat) (l : Label) : Label :=
  mkLabel (text l) (Some (r, c)).

(** [lbl.grid_remove()] *)
Definition Label_grid_remove (l : Label) : Label :=
  mkLabel (text l) None.

Definition shown (l : Label) : bool :=
  match grid_info l with Some _ => true | None => false end.

(** The seven lists of labels of [DisplayApp]. *)
Inductive Column :=
| time_disp | dest_disp | plat_disp | expt_disp | cars_disp
| delayreason_disp | cancelreason_disp.

Global Instance Column_eq_dec : EqDecision Column.
Proof. solve_decision. Defined.

Record DisplayApp := mkDisplayApp {
  title : string;                    (* root.title() *)
  statusbar : Label;
  Esc_to_exit : Label;
  curtime : Label;
  disp : Column → list Label
}.

(** The display as [DisplayApp.__init__] leaves it: a fresh root window is
    titled tk, every list holds ten labels, nothing is on the grid. *)
Definition DisplayApp_init : DisplayApp :=
  {| title := "tk";
     statusbar := new_Label;
     Esc_to_exit := mkLabel (PyStr "Esc to exit") None;
     curtime := new_Label;
     disp := λ _, replicate 10 new_Label |}.

Definition set_title (t : string) (d : DisplayApp) : DisplayApp :=
  {| title := t; statusbar := statusbar d; Esc_to_exit := Esc_to_exit d;
     curtime := curtime d; disp := disp d |}.

Definition set_statusbar (l : Label) (d : DisplayApp) : DisplayApp :=
  {| title := title d; statusbar := l; Esc_to_exit := Esc_to_exit d;
     curtime := curtime d; disp := disp d |}.

Definition set_Esc_to_exit (l : Label) (d : DisplayApp) : DisplayApp :=
  {| title := title d; statusbar := statusbar d; Esc_to_exit := l;
     curtime := curtime d; disp := disp d |}.

Definition set_curtime (l : Label) (d : DisplayApp) : DisplayApp :=
  {| title := title d; statusbar := statusbar d; Esc_to_exit := Esc_to_exit d;
     curtime := l; disp := disp d |}.

(** Apply [f] to the label [disp c [i]], which is shared by every later
    reader of that list. *)
Definition update_label (c : Column) (i : nat) (f : Label → Label) (d : DisplayApp)
  : DisplayApp :=
  {| title := title d; statusbar := statusbar d; Esc_to_exit := Esc_to_exit d;
     curtime := curtime d;
     disp := λ c', if decide (c' = c)
                   then match disp d c !! i with
                        | Some l => <[i := f l]> (disp d c)
                        | None => disp d c
                        end
                   else disp d c' |}.

(** [self.statusbar_text(msg)] *)
Definition statusbar_text (msg : string) (d : DisplayApp) : DisplayApp :=
  set_statusbar (Label_config (PyStr msg) (statusbar d)) d.

(** ** The frame of [display_info] *)

(** The display together with the two local counters of [display_info]. *)
Record Frame := mkFrame {
  self : DisplayApp;
  display_row : nat;
  row_listindex : nat
}.

Definition on_self (f : DisplayApp → DisplayApp) : M Frame unit :=
  modify (λ fr, mkFrame (f (self fr)) (display_row fr) (row_listindex fr)).

(** [display_row += 1] and [row_listindex += 1] *)
Definition incr_display_row : M Frame unit :=
  modify (λ fr, mkFrame (self fr) (S (display_row fr)) (row_listindex fr)).

Definition incr_row_listindex : M Frame unit :=
  modify (λ fr, mkFrame (self fr) (display_row fr) (S (row_listindex fr))).

(** A reference to one label object inside the lists. *)
Definition Widget : Type := Column * nat.

Definition label_at (d : DisplayApp) (w : Widget) : option Label :=
  disp d w.1 !! w.2.

(** [self.<c>[i]]: the label object, or [IndexError] past the end. *)
Definition subscript (c : Column) (i : nat) : M Frame Widget :=
  λ fr, match disp (self fr) c !! i with
        | Some _ => (Ok (c, i), fr)
        | None => (Raise IndexError, fr)
        end.

Definition config (w : Widget) (v : pyval) : M Frame unit :=
  on_self (update_label w.1 w.2 (Label_config v)).

Definition grid (w : Widget) (r c : nat) : M Frame unit :=
  on_self (update_label w.1 w.2 (Label_grid r c)).

Definition grid_remove (w : Widget) : M Frame unit :=
  on_self (update_label w.1 w.2 Label_grid_remove).

(** [w.grid_info() != {}] *)
Definition on_grid (w : Widget) : M Frame bool :=
  gets (λ fr, match label_at (self fr) w with
              | Some l => shown l
              | None => false
              end).

(** [self.<c>[row_listindex]] *)
Definition cell (c : Column) : M Frame Widget :=
  (i <- gets row_listindex;; subscript c i)%py.

Section Board.

(** [int(config['display']['rows'])].  A value below zero would blank no
    row, as zero does. *)
Variable service_numrows : nat.

(** Python's [str()] on a value that is not a string. *)
Variable py_str : pyval → string.

(** ['%s' % v] *)
Definition format_s (v : pyval) : string :=
  match v with
  | PyStr s => s
  | _ => py_str v
  end.

Open Scope py_scope.

(** [self.<c>[row_listindex].config(text=<lookup>)] followed by
    [self.<c>[row_listindex].grid(row=display_row, column=col)].  The label
    is fetched from its list before the lookup in the service is made. *)
Definition show_text (c : Column) (lookup : res pyval) (col : nat) : M Frame unit :=
  w <- cell c;;
  v <- lift lookup;;
  config w v;;
  w <- cell c;;
  r <- gets display_row;;
  grid w r col.

(** The [if ... elif ...] that puts a reason on the next row, or takes the
    label off the grid when it is showing and no longer wanted. *)
Definition reason_row (c : Column) (wanted : res bool) (reason : res pyval)
  : M Frame unit :=
  b <- lift wanted;;
  if b
  then
    incr_display_row;;
    w <- cell c;;
    v <- lift reason;;
    config w v;;
    w <- cell c;;
    r <- gets display_row;;
    grid w r 1
  else
    w <- cell c;;
    g <- on_grid w;;
    when g then
      w <- cell c;;
      grid_remove w.

(** [services['destination']['location'][0]['locationName']] *)
Definition destination_name (services : pyval) : res pyval :=
  d ← getitem services "destination";
  l ← getitem d "location";
  l0 ← getitem0 l;
  getitem l0 "locationName".

(** [services['platform'] if services['platform'] != None else ''] *)
Definition platform_text (services : pyval) : res pyval :=
  p ← getitem services "platform";
  if is_None p then Ok (PyStr "") else getitem services "platform".

(** [services['isCancelled'] and services['cancelReason'] is not None] *)
Definition cancel_wanted (services : pyval) : res bool :=
  c ← getitem services "isCancelled";
  if truthy c
  then x ← getitem services "cancelReason"; Ok (negb (is_None x))
  else Ok false.

(** [services['cancelReason'] is None and services['delayReason'] is not None] *)
Definition delay_wanted (services : pyval) : res bool :=
  x ← getitem services "cancelReason";
  if is_None x
  then y ← getitem services "delayReason"; Ok (negb (is_None y))
  else Ok false.

(** The body of the [try] block: one service written into the labels at
    [row_listindex], field after field. *)
Definition render_service (services : pyval) : M Frame unit :=
  (* Departure time *)
  show_text time_disp (getitem services "std") 0;;
  (* Destination *)
  show_text dest_disp (destination_name services) 1;;
  (* Platform *)
  show_text plat_disp (platform_text services) 2;;
  (* Expected time *)
  show_text expt_disp (getitem services "etd") 3;;
  (* No. of cars *)
  show_text cars_disp (getitem services "length") 4;;
  (* if there is a cancel reason then print it on the next row *)
  reason_row cancelreason_disp (cancel_wanted services)
             (getitem services "cancelReason");;
  (* only display delayreason if there is no cancelreason *)
  reason_row delayreason_disp (delay_wanted services)
             (getitem services "delayReason").

Definition unknown_data_key (ke : string) : M Frame unit :=
  on_self (statusbar_text ("Unknown data key " +:+ ke)).

(** One turn of the [for] loop: the guarded body, then both counters. *)
Definition service_turn (services : pyval) : M Frame unit :=
  try_except_KeyError (render_service services) unknown_data_key;;
  incr_display_row;;
  incr_row_listindex.

(** [for services in ...:] *)
Fixpoint for_services (l : list pyval) : M Frame unit :=
  match l with
  | [] => ret tt
  | services :: rest => service_turn services;; for_services rest
  end.

(** The seven labels of slot [item], in the order of the list handed to
    [map(tk.Label.grid_remove, ...)]. *)
Definition row_columns : list Column :=
  [time_disp; dest_disp; plat_disp; expt_disp; cars_disp;
   cancelreason_disp; delayreason_disp].

Fixpoint subscript_all (cs : list Column) (item : nat) : M Frame (list Widget) :=
  match cs with
  | [] => ret []
  | c :: cs' =>
      w <- subscript c item;;
      ws <- subscript_all cs' item;;
      ret (w :: ws)
  end.

Fixpoint grid_remove_all (ws : list Widget) : M Frame unit :=
  match ws with
  | [] => ret tt
  | w :: ws' => grid_remove w;; grid_remove_all ws'
  end.

(** [list(map(tk.Label.grid_remove, [self.time_disp[item], ...]))] *)
Definition blank_slot (item : nat) : M Frame unit :=
  ws <- subscript_all row_columns item;;
  grid_remove_all ws.

(** [for item in range(item, item + n):] hide slot [item] if its time label
    is on the grid, else [break]. *)
Fixpoint blank_rows (n : nat) (item : nat) : M Frame unit :=
  match n with
  | 0 => ret tt
  | S n' =>
      w <- subscript time_disp item;;
      g <- on_grid w;;
      if g
      then
        blank_slot item;;
        blank_rows n' (S item)
      else ret tt
  end.

(** The three tests at the head of [display_info]; the value is [data_OK]
    together with the response when it is there. *)
Definition check_data (GSBR : option pydict) : M Frame (option pydict) :=
  match GSBR with
  | None =>
      on_self (statusbar_text "No data received");;
      ret None
  | Some g =>
      match dict_get g "trainServices" with
      | None =>
          on_self (statusbar_text "No services available");;
          ret None
      | Some ts =>
          if is_None ts
          then on_self (statusbar_text "No services available");; ret None
          else ret (Some g)
      end
  end.

Definition display_info_frame (GSBR : option pydict) : M Frame unit :=
  data_OK <- check_data GSBR;;
  match data_OK with
  | Some g =>
      (* Window title only needs changing on first access *)
      t <- gets (λ fr, title (self fr));;
      (when String.eqb t "tk" then
         n <- lift (getitem (PyDict g) "locationName");;
         on_self (set_title ("Departures from " +:+ format_s n)));;
      ts <- lift (getitem (PyDict g) "trainServices");;
      sv <- lift (getitem ts "service");;
      l <- lift (py_iter sv);;
      for_services l;;
      (* Blank out any unused rows following *)
      i <- gets row_listindex;;
      when (i <? service_numrows)%nat then blank_rows (service_numrows - i) i
  | None => ret tt
  end;;
  (* Display the status message *)
  r <- gets display_row;;
  on_self (λ d, set_statusbar (Label_grid r 0 (statusbar d)) d);;
  on_self (λ d, set_Esc_to_exit (Label_grid r 4 (Esc_to_exit d)) d).

(** [DisplayApp.display_info]: the frame starts on row 2 of the window and
    at index 0 of the lists. *)
Definition display_info (GSBR : option pydict) : M DisplayApp unit :=
  λ d, let (r, fr) := display_info_frame GSBR (mkFrame d 2 0) in (r, self fr).

(** ** The program around the display *)

(** The callbacks handed to [after()]. *)
Inductive Callback := cb_update_display | cb_update_time.

Global Instance Callback_eq_dec : EqDecision Callback.
Proof. solve_decision. Defined.

(** The globals of the program, and what it did to the outside world. *)
Record App := mkApp {
  display : DisplayApp;
  Running : bool;
  after_queue : list Callback;   (* timers set with after(), not yet fired *)
  destroyed : bool;              (* display.root.destroy() was called *)
  requests : nat;                (* GetDepartureBoard calls made *)
  dialogs : list string          (* texts shown by messagebox.showinfo *)
}.

Definition App_init : App :=
  {| display := DisplayApp_init; Running := true; after_queue := [];
     destroyed := false; requests := 0; dialogs := [] |}.

Definition on_display (f : DisplayApp → DisplayApp) : M App unit :=
  modify (λ a, mkApp (f (display a)) (Running a) (after_queue a)
                     (destroyed a) (requests a) (dialogs a)).

(** Run a method of the display on the display of the program. *)
Definition with_display {A} (m : M DisplayApp A) : M App A :=
  λ a, let (r, d) := m (display a) in
       (r, mkApp d (Running a) (after_queue a) (destroyed a) (requests a)
                 (dialogs a)).

Definition set_Running (b : bool) : M App unit :=
  modify (λ a, mkApp (display a) b (after_queue a) (destroyed a)
                     (requests a) (dialogs a)).

(** [widget.after(ms, cb)] *)
Definition after (cb : Callback) : M App unit :=
  modify (λ a, mkApp (display a) (Running a) (after_queue a ++ [cb])
                     (destroyed a) (requests a) (dialogs a)).

(** [display.root.destroy()] *)
Definition destroy : M App unit :=
  modify (λ a, mkApp (display a) (Running a) (after_queue a) true
                     (requests a) (dialogs a)).

(** [messagebox.showinfo("Service update", msg)] *)
Definition showinfo (msg : string) : M App unit :=
  modify (λ a, mkApp (display a) (Running a) (after_queue a) (destroyed a)
                     (requests a) (dialogs a ++ [msg])).

(** What one call of [client.service.GetDepartureBoard] does: it returns a
    response object (or [None]), or it raises an exception [ze], of which
    only [str(ze)] is used. *)
Inductive Outcome :=
| Returns (response : option pydict)
| Fails (ze : string).

(** What the statement in the [try] block of [getServiceInfo] comes to.
    The operation is looked up in the client and the arguments
    [config['display']['rows']] and [config['station']['crs']] are evaluated
    before the call: an exception there leaves the block with no call made. *)
Inductive Attempt :=
| Called (o : Outcome)
| Not_called (ze : string).

Coercion Called : Outcome >-> Attempt.

Definition send_request : M App unit :=
  modify (λ a, mkApp (display a) (Running a) (after_queue a) (destroyed a)
                     (S (requests a)) (dialogs a)).

(** The statement in the [try] block: the response, or the text of the
    exception that leaves the block. *)
Definition GetDepartureBoard (t : Attempt) : M App (option pydict + string) :=
  match t with
  | Not_called ze => ret (inr ze)
  | Called o =>
      send_request;;
      match o with
      | Returns response => ret (inl response)
      | Fails ze => ret (inr ze)
      end
  end.

(** [OpenLDBWSApp.getServiceInfo] *)
Definition getServiceInfo (t : Attempt) : M App (option pydict) :=
  r <- GetDepartureBoard t;;
  match r with
  | inr ze =>
      on_display (statusbar_text ("Web service error: " +:+ ze));;
      ret None
  | inl response =>
      on_display (statusbar_text "OK");;
      ret response
  end.

Definition newline : string := String (Ascii.ascii_of_nat 10) EmptyString.

Fixpoint values_1 (l : list pyval) : res (list pyval) :=
  match l with
  | [] => Ok []
  | d :: l' =>
      v ← getitem d "_value_1";
      vs ← values_1 l';
      Ok (v :: vs)
  end.

(** ['\n\n'.join(dict['_value_1'] for dict in nrcc['message'])] *)
Definition service_messages (nrcc : pyval) : res string :=
  m ← getitem nrcc "message";
  l ← py_iter m;
  vs ← values_1 l;
  str_join (newline +:+ newline) vs.

(** [update_display]; [t] is what the call of the service comes to. *)
Definition update_display (display_messages : bool) (t : Attempt) : M App unit :=
  GSBRtodisplay <- getServiceInfo t;;
  (* Display service messages only once on starting the program *)
  match GSBRtodisplay with
  | Some g =>
      if display_messages
      then
        nrcc <- lift (getitem (PyDict g) "nrccMessages");;
        when negb (is_None nrcc) then
          msg <- lift (service_messages nrcc);;
          showinfo msg
      else ret tt
  | None => ret tt
  end;;
  with_display (display_info GSBRtodisplay);;
  r <- gets Running;;
  if r
  then after cb_update_display   (* Update every 15 seconds *)
  else destroy.                  (* terminate Tkinter's mainloop *)

(** [DisplayApp.update_time]; [now] is the formatted time of day. *)
Definition update_time (now : string) : M App unit :=
  on_display (λ d, set_curtime (Label_config (PyStr now) (curtime d)) d);;
  on_display (λ d, set_curtime (Label_grid 0 3 (curtime d)) d);;
  (* Queue again to tick once per second *)
  r <- gets Running;;
  when r then after cb_update_time.

Definition stop_msg : string := "Stopping...".

(** [DisplayApp.handle_keyevent]: keycode 9 is the Esc key. *)
Definition handle_keyevent (keycode : nat) : M App unit :=
  when (keycode =? 9)%nat then
    set_Running false;;
    on_display (statusbar_text stop_msg).

(** [DisplayApp.handle_windowclose] *)
Definition handle_windowclose : M App unit :=
  set_Running false;;
  on_display (statusbar_text stop_msg).

(** What the main loop can dispatch: a timer that is due, with what the
    callback will find outside the program, or an input event. *)
Inductive Event :=
| timer_update_display (t : Attempt)
| timer_update_time (now : string)
| key_event (keycode : nat)
| window_close.

(** Take the first timer for [cb] out of the queue. *)
Fixpoint fire (cb : Callback) (q : list Callback) : option (list Callback) :=
  match q with
  | [] => None
  | cb' :: q' =>
      if decide (cb' = cb) then Some q'
      else q'' ← fire cb q'; Some (cb' :: q'')
  end.

Definition set_after_queue (q : list Callback) (a : App) : App :=
  mkApp (display a) (Running a) q (destroyed a) (requests a) (dialogs a).

(** A timer fires only if it was set.  An exception that leaves a callback
    is reported by Tkinter and the main loop goes on. *)
Definition run_timer (cb : Callback) (m : M App unit) (a : App) : App :=
  match fire cb (after_queue a) with
  | Some q => (m (set_after_queue q a)).2
  | None => a
  end.

(** One turn of [display.root.mainloop()], which has returned once the
    root window is destroyed. *)
Definition dispatch (a : App) (e : Event) : App :=
  if destroyed a then a
  else
    match e with
    | timer_update_display t => run_timer cb_update_display (update_display false t) a
    | timer_update_time now => run_timer cb_update_time (update_time now) a
    | key_event keycode => (handle_keyevent keycode a).2
    | window_close => (handle_windowclose a).2
    end.

Definition mainloop (a : App) (events : list Event) : App :=
  foldl dispatch a events.

(** The main code from [Running = True] on: the first refresh with
    [display_messages = True], the clock, then the main loop.  An exception
    in the first two calls ends the program before the loop is entered. *)
Definition main (t : Attempt) (now : string) (events : list Event) : res unit * App :=
  match (update_display true t;; update_time now) App_init with
  | (Ok _, a) => (Ok tt, mainloop a events)
  | (Raise e, a) => (Raise e, a)
  end.

(** ** Sample data *)

(** A service as the response carries it, with all the fields the body
    reads. *)
Definition a_service (std dest : string) (platform length : pyval)
    (isCancelled : bool) (cancelReason delayReason : pyval) : pyval :=
  PyDict [("std", PyStr std);
          ("etd", PyStr "On time");
          ("destination",
           PyDict [("location", PyList [PyDict [("locationName", PyStr dest)]])]);
          ("platform", platform);
          ("length", length);
          ("isCancelled", PyBool isCancelled);
          ("cancelReason", cancelReason);
          ("delayReason", delayReason)].

(** The 10:15 to Paddington, on time. *)
Definition on_time : pyval :=
  a_service "10:15" "Paddington" (PyStr "4") (PyStr "8") false PyNone PyNone.

(** A cancelled service that carries both reasons. *)
Definition cancelled_service : pyval :=
  a_service "10:20" "Oxford" PyNone PyNone true
            (PyStr "a shortage of train crew") (PyStr "a late running train").

(** A delayed service. *)
Definition delayed_service : pyval :=
  a_service "10:25" "Didcot" (PyStr "2") PyNone false
            PyNone (PyStr "a late running train").

(** A service that runs and yet carries a cancel reason beside its delay
    reason. *)
Definition running_with_cancel_reason : pyval :=
  a_service "10:30" "Newbury" (PyStr "1") PyNone false
            (PyStr "a fault on this train") (PyStr "a late running train").

(** A service without the key [std]. *)
Definition no_std : pyval :=
  PyDict [("etd", PyStr "On time"); ("platform", PyStr "7")].

(** A service without the key [etd]: the body fails after the platform. *)
Definition no_etd : pyval :=
  PyDict [("std", PyStr "10:40");
          ("destination",
           PyDict [("location", PyList [PyDict [("locationName", PyStr "Bath")]])]);
          ("platform", PyStr "7")].


(** A response for Reading with the services [l] and no messages. *)
Definition response_of (l : list pyval) : pydict :=
  [("locationName", PyStr "Reading");
   ("nrccMessages", PyNone);
   ("trainServices", PyDict [("service", PyList l)])].

(** A response for Oxford with the services [l] and no messages. *)
Definition oxford_response (l : list pyval) : pydict :=
  [("locationName", PyStr "Oxford");
   ("nrccMessages", PyNone);
   ("trainServices", PyDict [("service", PyList l)])].

(** [str()] where it is not needed: the sample responses carry their
    station name as a string. *)
Definition no_str : pyval → string := λ _, "".

(** ** Vocabulary of the properties *)

(** Every list holds the ten labels that [__init__] made. *)
Definition ten_labels (d : DisplayApp) : Prop :=
  ∀ c, length (disp d c) = 10.

(** The label [w] is on the grid. *)
Definition showing (d : DisplayApp) (w : Widget) : bool :=
  match label_at d w with
  | Some l => shown l
  | None => false
  end.

(** What [show_text] and the first branch of [reason_row] do to a label. *)
Definition written (r col : nat) (v : pyval) (l : Label) : Label :=
  Label_grid r col (Label_config v l).

Definition write (c : Column) (col : nat) (v : pyval) (fr : Frame) : Frame :=
  mkFrame
    (update_label c (row_listindex fr) (Label_grid (display_row fr) col)
       (update_label c (row_listindex fr) (Label_config v) (self fr)))
    (display_row fr) (row_listindex fr).

Definition next_row (fr : Frame) : Frame :=
  mkFrame (self fr) (S (display_row fr)) (row_listindex fr).

(** What the second branch of [reason_row] does. *)
Definition hide (c : Column) (fr : Frame) : Frame :=
  if showing (self fr) (c, row_listindex fr)
  then mkFrame (update_label c (row_listindex fr) Label_grid_remove (self fr))
               (display_row fr) (row_listindex fr)
  else fr.

Definition is_ok {A} (r : res A) : bool :=
  match r with Ok _ => true | Raise _ => false end.

Definition void {A} (r : res A) : res unit :=
  match r with Ok _ => Ok tt | Raise e => Raise e end.

(** The lookups that the body makes in a service, in the order in which it
    makes them. *)
Definition stages (e : pyval) : list (res unit) :=
  [void (getitem e "std"); void (destination_name e); void (platform_text e);
   void (getitem e "etd"); void (getitem e "length");
   void (cancel_wanted e); void (delay_wanted e)].

Fixpoint first_raise (l : list (res unit)) : res unit :=
  match l with
  | [] => Ok tt
  | Ok _ :: l' => first_raise l'
  | Raise e :: _ => Raise e
  end.

(** How the body ends on a service, when the labels are there. *)
Definition body_result (e : pyval) : res unit := first_raise (stages e).

(** The first [n] lookups succeed. *)
Definition passed (n : nat) (e : pyval) : bool :=
  forallb is_ok (take n (stages e)).

(** A service that has every field the body asks for. *)
Definition complete (e : pyval) : Prop := body_result e = Ok tt.

(** A service on which the body ends normally or with a [KeyError]. *)
Definition tolerated (e : pyval) : Prop :=
  body_result e = Ok tt ∨ ∃ k, body_result e = Raise (KeyError k).

Definition is_true_res (r : res bool) : bool :=
  match r with Ok true => true | _ => false end.

(** The rows below its own that a service takes: one if a reason is put on
    the grid. *)
Definition sub_rows (e : pyval) : nat :=
  (if passed 6 e && is_true_res (cancel_wanted e) then 1 else 0) +
  (if passed 7 e && is_true_res (delay_wanted e) then 1 else 0).

(** The place of each list in the body: the number of the lookup that
    feeds it, the lookup itself, and the grid column. *)
Definition stage_of (c : Column) : nat :=
  match c with
  | time_disp => 1 | dest_disp => 2 | plat_disp => 3 | expt_disp => 4
  | cars_disp => 5 | cancelreason_disp => 6 | delayreason_disp => 7
  end.

Definition column_text (c : Column) (e : pyval) : res pyval :=
  match c with
  | time_disp => getitem e "std"
  | dest_disp => destination_name e
  | plat_disp => platform_text e
  | expt_disp => getitem e "etd"
  | cars_disp => getitem e "length"
  | cancelreason_disp => getitem e "cancelReason"
  | delayreason_disp => getitem e "delayReason"
  end.

Definition grid_column (c : Column) : nat :=
  match c with
  | time_disp => 0 | dest_disp => 1 | plat_disp => 2 | expt_disp => 3
  | cars_disp => 4 | cancelreason_disp => 1 | delayreason_disp => 1
  end.

(** The five labels of the row of a service itself. *)
Definition primary (c : Column) : Prop := stage_of c ≤ 5.

Definition reason_wanted (c : Column) (e : pyval) : bool :=
  match c with
  | cancelreason_disp => is_true_res (cancel_wanted e)
  | delayreason_disp => is_true_res (delay_wanted e)
  | _ => true
  end.

Definition grid_row (c : Column) (r : nat) : nat :=
  match c with
  | cancelreason_disp | delayreason_disp => S r
  | _ => r
  end.

(** The label of list [c] in the slot of service [e] after the body has run
    with [display_row = r], from what the label was before. *)
Definition label_after (e : pyval) (r : nat) (c : Column) (l : Label) : Label :=
  if passed (stage_of c) e
  then
    if reason_wanted c e
    then
      match column_text c e with
      | Ok v => written (grid_row c r) (grid_column c) v l
      | Raise _ => l
      end
    else Label_grid_remove l
  else l.

(** The display rows that one turn of the loop takes. *)
Definition rows_used (e : pyval) : nat := S (sub_rows e).

(** The display rows taken by the first [k] services. *)
Definition rows_before (es : list pyval) (k : nat) : nat :=
  sum_list (rows_used <$> take k es).

(** The status bar after the turn of service [e]. *)
Definition status_after (l : Label) (e : pyval) : Label :=
  match body_result e with
  | Raise (KeyError k) => Label_config (PyStr ("Unknown data key " +:+ k)) l
  | _ => l
  end.

(** The label of list [c] in slot [j] after the loop has run over [es] from
    slot [i0] and display row [r0], from what it was before. *)
Definition slot_after (es : list pyval) (i0 r0 : nat) (c : Column) (j : nat)
    (o : option Label) : option Label :=
  if decide (i0 ≤ j)
  then match es !! (j - i0) with
       | Some e => label_after e (r0 + rows_before es (j - i0)) c <$> o
       | None => o
       end
  else o.

(** The number of slots from [item] on, [n] at most, whose time label is on
    the grid one after the other. *)
Fixpoint shown_run (d : DisplayApp) (n item : nat) : nat :=
  match n with
  | 0 => 0
  | S n' =>
      if showing d (time_disp, item)
      then S (shown_run d n' (S item))
      else 0
  end.

(** The response [g] has train services, and the loop runs over [es]. *)
Definition has_services (g : pydict) (es : list pyval) : Prop :=
  ∃ ts sv, dict_get g "trainServices" = Some ts ∧ is_None ts = false
    ∧ getitem ts "service" = Ok sv ∧ py_iter sv = Ok es.

(** The response [g] passes the tests at the head of [display_info]. *)
Definition data_OK (g : pydict) : bool :=
  match dict_get g "trainServices" with
  | Some ts => negb (is_None ts)
  | None => false
  end.

(** The window title after a response that has train services. *)
Definition title_after (g : pydict) (t : string) : string :=
  if String.eqb t "tk"
  then match getitem (PyDict g) "locationName" with
       | Ok n => "Departures from " +:+ format_s n
       | Raise _ => t
       end
  else t.

(** The station name can be read when the title is still to be set. *)
Definition title_ready (g : pydict) (d : DisplayApp) : Prop :=
  title d = "tk" → is_ok (getitem (PyDict g) "locationName") = true.

(** The slots below [m] show their time label, the slots from [m] on show
    nothing. *)
Definition prefix_shown (d : DisplayApp) (m : nat) : Prop :=
  ∀ j, j < 10 →
    (j < m → showing d (time_disp, j) = true) ∧
    (m ≤ j → ∀ c, showing d (c, j) = false).

(** The loop over the services and the blanking of the rows after them. *)
Definition populate (es : list pyval) : M Frame unit :=
  for_services es;;
  i <- gets row_listindex;;
  when (i <? service_numrows) then blank_rows (service_numrows - i) i.

(** The last two statements of [display_info]. *)
Definition place_status : M Frame unit :=
  r <- gets display_row;;
  on_self (λ d, set_statusbar (Label_grid r 0 (statusbar d)) d);;
  on_self (λ d, set_Esc_to_exit (Label_grid r 4 (Esc_to_exit d)) d).

(** The display after one more call of [display_info], whether the call
    returned or raised. *)
Definition refresh (d : DisplayApp) (GSBR : option pydict) : DisplayApp :=
  (display_info GSBR d).2.

(** The number of timers for [cb] that are set and have not fired. *)
Definition pending (cb : Callback) (a : App) : nat :=
  length (filter (λ x, x = cb) (after_queue a)).

(** The dialog that the first call of [update_display] opens: one, with the
    messages of the response, when there is a response and its
    [nrccMessages] is not [None]; none otherwise. *)
Definition first_dialog (t : Attempt) : list string :=
  match t with
  | Called (Returns (Some g)) =>
      match getitem (PyDict g) "nrccMessages" with
      | Ok nrcc =>
          if is_None nrcc then []
          else match service_messages nrcc with
               | Ok msg => [msg]
               | Raise _ => []
               end
      | Raise _ => []
      end
  | _ => []
  end.

(** The frame of [display_info] on the response [g] when its loop has made
    the first [n] turns over the services [es]. *)
Definition loop_frame (g : pydict) (d : DisplayApp) (es : list pyval)
    (n : nat) : Frame :=
  (for_services (take n es)
     (mkFrame (set_title (title_after g (title d)) d) 2 0)).2.

(** The call of [GetDepartureBoard] was made. *)
Definition called (t : Attempt) : bool :=
  match t with
  | Called _ => true
  | Not_called _ => false
  end.

(** The text that [getServiceInfo] writes to the status bar, and the value
    that it returns. *)
Definition service_status (t : Attempt) : string :=
  match t with
  | Called (Returns _) => "OK"
  | Called (Fails ze) | Not_called ze => "Web service error: " +:+ ze
  end.

Definition service_response (t : Attempt) : option pydict :=
  match t with
  | Called (Returns response) => response
  | _ => None
  end.

(** [f] applied to the label of list [c] in slot [i], seen from the label
    [o] of list [c'] in slot [j]. *)
Definition at_slot (c : Column) (i : nat) (f : Label → Label)
    (c' : Column) (j : nat) (o : option Label) : option Label :=
  if decide (c' = c)
  then if decide (j = i) then f <$> o else o
  else o.

(** A frame on which the body can reach its labels. *)
Definition ready (fr : Frame) : Prop :=
  ten_labels (self fr) ∧ row_listindex fr < 10.

(** The parts of the window that the body leaves alone. *)
Definition same_window (d d' : DisplayApp) : Prop :=
  title d' = title d ∧ statusbar d' = statusbar d ∧
  Esc_to_exit d' = Esc_to_exit d ∧ curtime d' = curtime d.

(** An event that lowers the flag [Running]: the Esc key, or closing the
    window. *)
Definition is_stop (e : Event) : bool :=
  match e with
  | key_event keycode => keycode =? 9
  | window_close => true
  | _ => false
  end.

(** The body ends with a [KeyError] on the service. *)
Definition lacks_key (e : pyval) : bool :=
  match body_result e with
  | Raise (KeyError _) => true
  | _ => false
  end.

(** ** The configuration and the start of the program *)

(** [config.has_option(section, option)] on the parsed [StationBoard.ini],
    kept as sections of options; options of a DEFAULT section count as
    written out in each section. *)
Definition has_option (config : gmap string (gmap string string))
    (section opt : string) : bool :=
  match config !! section with
  | Some s => bool_decide (is_Some (s !! opt))
  | None => false
  end.

(** The text of the [KeyError] that [config[section][option]] raises, when
    it raises: the section is looked up first. *)
Definition config_KeyError (config : gmap string (gmap string string))
    (section opt : string) : option string :=
  match config !! section with
  | None => Some (repr_key section)
  | Some s =>
      match s !! opt with
      | None => Some (repr_key opt)
      | Some _ => None
      end
  end.

(** [config[section][option] if config.has_option(section, option) else
    default] *)
Definition option_or (config : gmap string (gmap string string))
    (section opt default : string) : string :=
  match config !! section ≫= (λ s, s !! opt) with
  | Some v => v
  | None => default
  end.

(** The test of the main code that raises [KeyError]:
    [not (has crs and has key) and has wsdl]. *)
Definition key_missing (config : gmap string (gmap string string)) : bool :=
  negb (has_option config "station" "crs" && has_option config "SOAP" "key")
  && has_option config "SOAP" "wsdl".

(** How the program starts. *)
Inductive Start :=
| Exits (printed : string)        (* a message, then [exit] *)
| Dies (e : exn)                  (* an exception that nothing catches *)
| No_client                       (* [zeep.Client] raised *)
| Starts (bgcolour headfgcolour itemfgcolour : string).

(** The main code up to the call of [DisplayApp]: the configuration is
    read and tested, [OpenLDBWSApp.__init__] reads the WSDL address, builds
    the client and reads the key, and the colours of the display get their
    defaults.  [file] is [None] when the file cannot be opened, [client]
    tells whether [zeep.Client] can be built. *)
Definition start (file : option (gmap string (gmap string string)))
    (client : bool) : Start :=
  match file with
  | None => Exits "Config file DisplayBoard.ini not found or cannot be read"
  | Some config =>
      if key_missing config then Exits "Key missing from config file"
      else
        match config_KeyError config "SOAP" "wsdl" with
        | Some k => Dies (KeyError k)
        | None =>
            if client
            then
              match config_KeyError config "SOAP" "key" with
              | Some k => Dies (KeyError k)
              | None =>
                  Starts (option_or config "display" "bgcolour" "black")
                         (option_or config "display" "headfgcolour" "white")
                         (option_or config "display" "itemfgcolour" "yellow")
              end
            else No_client
        end
  end.

(** What the statement in the [try] block of [getServiceInfo] comes to
    under a configuration: the operation is looked up in the client,
    [config['display']['rows']] and [config['station']['crs']] are read,
    and only then the call is made.  [operation] is the text of the
    exception when the look-up of the operation raises, [net] is what the
    call does when it is made. *)
Definition call_attempt (config : gmap string (gmap string string))
    (operation : option string) (net : Outcome) : Attempt :=
  match operation with
  | Some ze => Not_called ze
  | None =>
      match config_KeyError config "display" "rows" with
      | Some k => Not_called k
      | None =>
          match config_KeyError config "station" "crs" with
          | Some k => Not_called k
          | None => Called net
          end
      end
  end.

(** A configuration with the three options that the main code asks for
    and nothing else. *)
Definition bare_config : gmap string (gmap string string) :=
  {[ "SOAP" := {[ "key" := "0000"; "wsdl" := "http://example.org/wsdl" ]};
     "station" := {[ "crs" := "RDG" ]} ]}.

(** A response with a service and without [locationName]. *)
Definition nameless_response : pydict :=
  [("trainServices", PyDict [("service", PyList [on_time])])].

(** A response whose [trainServices] has no [service]. *)
Definition serviceless_response : pydict :=
  [("locationName", PyStr "Reading"); ("trainServices", PyDict [])].

(** A response with a message that has no [_value_1]. *)
Definition broken_messages_response : pydict :=
  [("locationName", PyStr "Reading");
   ("nrccMessages", PyDict [("message", PyList [PyDict []])]);
   ("trainServices", PyNone)].

(** A configuration with the key alone: no WSDL address and no station. *)
Definition no_wsdl_config : gmap string (gmap string string) :=
  {[ "SOAP" := {[ "key" := "0000" ]} ]}.

(** ** Labels under update *)

Lemma length_update_label c i f d c' :
  length (disp (update_label c i f d) c') = length (disp d c').
Proof.
  unfold update_label; simpl. case_decide; subst; [|done].
  destruct (disp d c !! i); [|done]. by rewrite length_insert.
Qed.

Lemma lookup_update_label c i f d c' j :
  disp (update_label c i f d) c' !! j =
  if decide (c' = c)
  then if decide (j = i) then f <$> disp d c !! i else disp d c !! j
  else disp d c' !! j.
Proof.
  unfold update_label; simpl.
  destruct (decide (c' = c)) as [->|Hc]; [|done].
  destruct (disp d c !! i) as [l|] eqn:Hl.
  - destruct (decide (j = i)) as [->|Hj].
    + rewrite list_lookup_insert_eq; [done|]. by eapply lookup_lt_Some.
    + by rewrite list_lookup_insert_ne.
  - case_decide as H; [|done]. by rewrite H, Hl.
Qed.

Lemma ten_labels_update_label c i f d :
  ten_labels d → ten_labels (update_label c i f d).
Proof. intros H c'. by rewrite length_update_label. Qed.

Lemma ten_labels_init : ten_labels DisplayApp_init.
Proof. intros c. reflexivity. Qed.

Arguments update_label : simpl never.

(** ** What the two building blocks of the body do *)

Lemma cell_run c fr :
  row_listindex fr < length (disp (self fr) c) →
  cell c fr = (Ok (c, row_listindex fr), fr).
Proof.
  intros H. unfold cell, bind, gets, subscript.
  by destruct (lookup_lt_is_Some_2 _ _ H) as [l ->].
Qed.

Lemma cell_out_of_range c fr :
  length (disp (self fr) c) ≤ row_listindex fr →
  cell c fr = (Raise IndexError, fr).
Proof.
  intros H. unfold cell, bind, gets, subscript.
  by rewrite lookup_ge_None_2.
Qed.

Lemma show_text_run c lookup col fr :
  row_listindex fr < length (disp (self fr) c) →
  show_text c lookup col fr =
  match lookup with
  | Ok v => (Ok tt, write c col v fr)
  | Raise e => (Raise e, fr)
  end.
Proof.
  intros H. unfold show_text. unfold bind at 1. rewrite cell_run by done.
  destruct lookup as [v|e]; [|done].
  unfold bind at 1, lift. unfold bind at 1, config, on_self, modify.
  unfold bind at 1. rewrite cell_run; [done|].
  cbn [self row_listindex]. by rewrite length_update_label.
Qed.

Lemma reason_row_run c wanted reason fr :
  row_listindex fr < length (disp (self fr) c) →
  reason_row c wanted reason fr =
  match wanted with
  | Raise e => (Raise e, fr)
  | Ok true =>
      match reason with
      | Ok v => (Ok tt, write c 1 v (next_row fr))
      | Raise e => (Raise e, next_row fr)
      end
  | Ok false => (Ok tt, hide c fr)
  end.
Proof.
  intros H. unfold reason_row. unfold bind at 1, lift.
  destruct wanted as [[|]|e]; [| |done].
  - unfold bind at 1, incr_display_row, modify. fold (next_row fr).
    unfold bind at 1. rewrite cell_run by done.
    destruct reason as [v|e]; [|done].
    unfold bind at 1, lift. unfold bind at 1, config, on_self, modify.
    unfold bind at 1. rewrite cell_run; [done|].
    cbn [self row_listindex next_row]. by rewrite length_update_label.
  - unfold bind at 1. rewrite cell_run by done.
    unfold bind at 1, on_grid, gets, hide, showing; simpl.
    destruct (match label_at _ _ with Some l => shown l | None => false end);
      [|done].
    unfold bind. by rewrite cell_run.
Qed.

Lemma ready_lt fr c : ready fr → row_listindex fr < length (disp (self fr) c).
Proof. intros [H ?]. by rewrite H. Qed.

Lemma ready_write c col v fr : ready fr → ready (write c col v fr).
Proof.
  intros [H ?]. split; [|done].
  by do 2 apply ten_labels_update_label.
Qed.

Lemma ready_next_row fr : ready fr → ready (next_row fr).
Proof. by intros [H ?]. Qed.

Lemma ready_hide c fr : ready fr → ready (hide c fr).
Proof.
  intros [H ?]. unfold hide. case_match; [|done].
  split; [|done]. by apply ten_labels_update_label.
Qed.

Create HintDb ready.
Hint Resolve ready_write ready_next_row ready_hide : ready.

Lemma cancel_wanted_true e :
  cancel_wanted e = Ok true →
  ∃ v, getitem e "cancelReason" = Ok v ∧ is_None v = false.
Proof.
  unfold cancel_wanted. destruct (getitem e "isCancelled") as [c|]; [|done].
  simpl. destruct (truthy c); [|done].
  destruct (getitem e "cancelReason") as [v|]; [|done].
  simpl. intros [= Hv]. exists v. split; [done|]. by destruct (is_None v).
Qed.

Lemma delay_wanted_true e :
  delay_wanted e = Ok true →
  getitem e "cancelReason" = Ok PyNone ∧
  ∃ v, getitem e "delayReason" = Ok v ∧ is_None v = false.
Proof.
  unfold delay_wanted. destruct (getitem e "cancelReason") as [x|]; [|done].
  simpl. destruct x; try done. simpl.
  destruct (getitem e "delayReason") as [v|]; [|done].
  simpl. intros [= Hv]. split; [done|]. exists v. split; [done|].
  by destruct (is_None v).
Qed.

Lemma delay_not_wanted e v :
  getitem e "cancelReason" = Ok v → is_None v = false →
  delay_wanted e = Ok false.
Proof. intros H1 H2. unfold delay_wanted. rewrite H1. simpl. by rewrite H2. Qed.

Lemma not_shown_grid_remove l : shown l = false → Label_grid_remove l = l.
Proof. destruct l as [t [g|]]; by cbv. Qed.

Lemma row_listindex_write c col v fr :
  row_listindex (write c col v fr) = row_listindex fr.
Proof. done. Qed.

Lemma display_row_write c col v fr :
  display_row (write c col v fr) = display_row fr.
Proof. done. Qed.

Lemma lookup_write c col v fr c' j :
  disp (self (write c col v fr)) c' !! j =
  at_slot c (row_listindex fr) (written (display_row fr) col v) c' j
          (disp (self fr) c' !! j).
Proof.
  unfold write, at_slot, written. cbn [self].
  rewrite !lookup_update_label.
  repeat case_decide; subst; try done.
  by destruct (disp (self fr) c !! row_listindex fr).
Qed.

Lemma row_listindex_next_row fr :
  row_listindex (next_row fr) = row_listindex fr.
Proof. done. Qed.

Lemma display_row_next_row fr :
  display_row (next_row fr) = S (display_row fr).
Proof. done. Qed.

Lemma self_next_row fr : self (next_row fr) = self fr.
Proof. done. Qed.

Lemma row_listindex_hide c fr : row_listindex (hide c fr) = row_listindex fr.
Proof. unfold hide. by case_match. Qed.

Lemma display_row_hide c fr : display_row (hide c fr) = display_row fr.
Proof. unfold hide. by case_match. Qed.

(** Taking a label off the grid only when it is on it comes to taking it
    off in any case. *)
Lemma lookup_hide c fr c' j :
  disp (self (hide c fr)) c' !! j =
  at_slot c (row_listindex fr) Label_grid_remove c' j (disp (self fr) c' !! j).
Proof.
  unfold hide, showing, label_at, at_slot. cbn [fst snd].
  destruct (disp (self fr) c !! row_listindex fr) as [l|] eqn:Hl.
  - destruct (shown l) eqn:Hs.
    + cbn [self]. rewrite lookup_update_label.
      repeat case_decide; subst; done.
    + repeat case_decide; subst; try done.
      rewrite ?Hl. simpl. by rewrite not_shown_grid_remove.
  - repeat case_decide; subst; try done. by rewrite ?Hl.
Qed.

Create Rewrite HintDb frame.
Hint Rewrite row_listindex_write display_row_write lookup_write
  row_listindex_next_row display_row_next_row self_next_row
  row_listindex_hide display_row_hide lookup_hide : frame.

Arguments write : simpl never.
Arguments next_row : simpl never.
Arguments hide : simpl never.

Lemma same_window_refl d : same_window d d.
Proof. done. Qed.

Lemma same_window_write d c col v fr :
  same_window d (self fr) → same_window d (self (write c col v fr)).
Proof. done. Qed.

Lemma same_window_next_row d fr :
  same_window d (self fr) → same_window d (self (next_row fr)).
Proof. done. Qed.

Lemma same_window_hide d c fr :
  same_window d (self fr) → same_window d (self (hide c fr)).
Proof. unfold hide. by case_match. Qed.

Create HintDb window.
Hint Resolve same_window_refl same_window_write same_window_next_row
  same_window_hide : window.

Ltac body_step :=
  unfold bind at 1;
  first [ rewrite show_text_run by (apply ready_lt; eauto 10 with ready)
        | rewrite reason_row_run by (apply ready_lt; eauto 10 with ready) ].

Ltac use_lookups :=
  repeat match goal with
         | H : @eq (res _) _ _ |- _ => progress rewrite H
         end.

Ltac unfold_after :=
  unfold body_result, sub_rows, label_after, passed, stages, reason_wanted,
    column_text, stage_of, grid_row, grid_column, written.

Ltac label_goal :=
  let c := fresh "c" in
  let j := fresh "j" in
  intros c j; autorewrite with frame;
  destruct c; unfold at_slot; simpl; unfold_after; use_lookups; simpl;
  (case_decide; [subst|done]);
  match goal with
  | |- context [disp ?d ?c !! ?i] => by destruct (disp d c !! i)
  end.

Ltac finish :=
  eexists; split; [unfold_after; use_lookups; reflexivity|];
  split; [by autorewrite with frame|];
  split; [unfold_after; use_lookups; autorewrite with frame; simpl; lia|];
  split; [eauto 20 with window|];
  split; [eauto 10 with ready|label_goal].

Lemma render_service_spec e fr :
  ready fr →
  ∃ fr', render_service e fr = (body_result e, fr')
    ∧ row_listindex fr' = row_listindex fr
    ∧ display_row fr' = display_row fr + sub_rows e
    ∧ same_window (self fr) (self fr')
    ∧ ready fr'
    ∧ ∀ c j, disp (self fr') c !! j =
         if decide (j = row_listindex fr)
         then label_after e (display_row fr) c <$> disp (self fr) c !! j
         else disp (self fr) c !! j.
Proof.
  intros Hr. unfold render_service.
  body_step. destruct (getitem e "std") as [v1|x1] eqn:H1; [|finish].
  body_step. destruct (destination_name e) as [v2|x2] eqn:H2; [|finish].
  body_step. destruct (platform_text e) as [v3|x3] eqn:H3; [|finish].
  body_step. destruct (getitem e "etd") as [v4|x4] eqn:H4; [|finish].
  body_step. destruct (getitem e "length") as [v5|x5] eqn:H5; [|finish].
  body_step. destruct (cancel_wanted e) as [[|]|x6] eqn:H6; [| |finish].
  - destruct (cancel_wanted_true _ H6) as (v6 & Hv6 & Hn6).
    rewrite Hv6. pose proof (delay_not_wanted _ _ Hv6 Hn6) as H7.
    rewrite reason_row_run by (apply ready_lt; eauto 10 with ready).
    rewrite H7. finish.
  - rewrite reason_row_run by (apply ready_lt; eauto 10 with ready).
    destruct (delay_wanted e) as [[|]|x7] eqn:H7; [|finish..].
    destruct (delay_wanted_true _ H7) as (Hc & v7 & Hv7 & Hn7).
    rewrite Hv7. finish.
Qed.

(** ** One turn of the loop, and the loop *)

Lemma service_turn_tolerated e fr :
  ready fr → tolerated e →
  ∃ fr', service_turn e fr = (Ok tt, fr')
    ∧ row_listindex fr' = S (row_listindex fr)
    ∧ display_row fr' = display_row fr + rows_used e
    ∧ ten_labels (self fr')
    ∧ title (self fr') = title (self fr)
    ∧ statusbar (self fr') = status_after (statusbar (self fr)) e
    ∧ Esc_to_exit (self fr') = Esc_to_exit (self fr)
    ∧ curtime (self fr') = curtime (self fr)
    ∧ ∀ c j, disp (self fr') c !! j =
         if decide (j = row_listindex fr)
         then label_after e (display_row fr) c <$> disp (self fr) c !! j
         else disp (self fr) c !! j.
Proof.
  intros Hr Ht.
  destruct (render_service_spec e fr Hr)
    as (fr1 & Hrun & Hi & Hd & (Hw1 & Hw2 & Hw3 & Hw4) & [Hten _] & Hl).
  unfold service_turn, bind, try_except_KeyError, status_after, rows_used.
  rewrite Hrun.
  destruct Ht as [Hb|[k Hb]]; rewrite Hb; simpl;
    (eexists; split; [reflexivity|]; simpl;
     repeat split; try done; try lia; congruence).
Qed.

Lemma service_turn_crash e fr x :
  ready fr → body_result e = Raise x → (∀ k, x ≠ KeyError k) →
  ∃ fr', service_turn e fr = (Raise x, fr')
    ∧ ten_labels (self fr')
    ∧ title (self fr') = title (self fr)
    ∧ ∀ c j, j ≠ row_listindex fr →
        disp (self fr') c !! j = disp (self fr) c !! j.
Proof.
  intros Hr Hb Hx.
  destruct (render_service_spec e fr Hr)
    as (fr1 & Hrun & _ & _ & (Hw1 & _) & [Hten _] & Hl).
  unfold service_turn, bind, try_except_KeyError. rewrite Hrun, Hb.
  destruct x; [by destruct (Hx shown0)|..];
    (exists fr1; repeat split; try done;
     intros c j Hj; by rewrite Hl, decide_False).
Qed.

Lemma service_turn_out_of_range e fr :
  ten_labels (self fr) → 10 ≤ row_listindex fr →
  service_turn e fr = (Raise IndexError, fr).
Proof.
  intros Hten Hi.
  unfold service_turn, bind, try_except_KeyError, render_service.
  unfold bind, show_text. unfold bind.
  rewrite cell_out_of_range; [done|]. by rewrite Hten.
Qed.

Lemma rows_before_cons e es k :
  rows_before (e :: es) (S k) = rows_used e + rows_before es k.
Proof. done. Qed.

Lemma for_services_tolerated es : ∀ fr,
  ten_labels (self fr) → row_listindex fr + length es ≤ 10 →
  Forall tolerated es →
  ∃ fr', for_services es fr = (Ok tt, fr')
    ∧ row_listindex fr' = row_listindex fr + length es
    ∧ display_row fr' = display_row fr + rows_before es (length es)
    ∧ ten_labels (self fr')
    ∧ title (self fr') = title (self fr)
    ∧ statusbar (self fr') = foldl status_after (statusbar (self fr)) es
    ∧ Esc_to_exit (self fr') = Esc_to_exit (self fr)
    ∧ curtime (self fr') = curtime (self fr)
    ∧ ∀ c j, disp (self fr') c !! j =
         slot_after es (row_listindex fr) (display_row fr) c j
                    (disp (self fr) c !! j).
Proof.
  induction es as [|e es IH]; intros fr Hten Hlen Hall.
  - exists fr. unfold rows_before, slot_after. simpl.
    repeat split; try done; try lia.
    intros c j. by case_decide.
  - simpl in Hlen. apply Forall_cons in Hall as [He Hall].
    destruct (service_turn_tolerated e fr) as
      (fr1 & Hrun & Hi & Hd & Hten1 & Ht & Hs & Hx & Hc & Hl);
      [split; [done|lia]|done|].
    destruct (IH fr1) as
      (fr2 & Hrun2 & Hi2 & Hd2 & Hten2 & Ht2 & Hs2 & Hx2 & Hc2 & Hl2);
      [done|lia|done|].
    exists fr2. cbn [for_services]. unfold bind at 1. rewrite Hrun.
    split; [done|]. split; [simpl; lia|].
    split; [rewrite Hd2, Hd; simpl length; rewrite rows_before_cons; lia|].
    split; [done|]. split; [congruence|].
    split; [by rewrite Hs2, Hs|]. split; [congruence|]. split; [congruence|].
    intros c j. rewrite Hl2, Hl, Hi, Hd. unfold slot_after.
    destruct (decide (j = row_listindex fr)) as [->|Hj].
    + rewrite decide_False by lia. rewrite decide_True by lia.
      replace (row_listindex fr - row_listindex fr) with 0 by lia.
      simpl. unfold rows_before. simpl. by rewrite Nat.add_0_r.
    + destruct (decide (row_listindex fr ≤ j)) as [Hle|Hle].
      * rewrite decide_True by lia.
        replace (j - row_listindex fr) with (S (j - S (row_listindex fr)))
          by lia.
        rewrite rows_before_cons. cbn [lookup list_lookup].
        by rewrite Nat.add_assoc.
      * by rewrite decide_False by lia.
Qed.

(** ** A service with a missing field *)

Ltac partial_row n :=
  exists n; split; [lia|];
  split; [unfold stages; use_lookups; reflexivity|];
  split; [unfold passed, stages; use_lookups; reflexivity|];
  split;
  [ let c := fresh "c" in
    let l := fresh "l" in
    let Hl := fresh "Hl" in
    intros c l Hl; rewrite Hl; destruct c; unfold_after; use_lookups;
    simpl; try done
  | let c := fresh "c" in
    intros c; destruct c; unfold column_text, stage_of; use_lookups;
    simpl; intros; try done; try lia ].

(** C10: a [KeyError] in the middle of a service leaves the labels written
    so far with their new text and place, leaves the other labels of the
    slot as they were, and the turn still takes one slot and one display
    row.  [n] is the number of lookups made before the one that failed:
    the first [n] lookups of the body succeed and lookup [n] is the one that
    raises the [KeyError]. *)
Theorem missing_field_keeps_partial_row e fr k :
  ready fr → body_result e = Raise (KeyError k) →
  ∃ fr', service_turn e fr = (Ok tt, fr')
    ∧ row_listindex fr' = S (row_listindex fr)
    ∧ display_row fr' = S (display_row fr)
    ∧ text (statusbar (self fr')) = PyStr ("Unknown data key " +:+ k)
    ∧ (∀ c j, j ≠ row_listindex fr →
         disp (self fr') c !! j = disp (self fr) c !! j)
    ∧ ∃ n, n < 7
      ∧ stages e !! n = Some (Raise (KeyError k))
      ∧ passed n e = true
      ∧ (∀ c l, disp (self fr) c !! row_listindex fr = Some l →
           disp (self fr') c !! row_listindex fr =
           Some (if decide (stage_of c ≤ n)
                 then match c, column_text c e with
                      | cancelreason_disp, _ => Label_grid_remove l
                      | _, Ok v => written (display_row fr) (grid_column c) v l
                      | _, Raise _ => l
                      end
                 else l))
      ∧ (∀ c, stage_of c ≤ n → c ≠ cancelreason_disp →
           is_ok (column_text c e) = true).
Proof.
  intros Hr Hb.
  destruct (service_turn_tolerated e fr Hr) as
    (fr' & Hrun & Hi & Hd & _ & _ & Hs & _ & _ & Hl); [right; eauto|].
  exists fr'. split; [done|]. split; [done|].
  assert (sub_rows e = 0 ∧ ∃ n, n < 7
      ∧ stages e !! n = Some (Raise (KeyError k))
      ∧ passed n e = true
      ∧ (∀ c l, disp (self fr) c !! row_listindex fr = Some l →
           label_after e (display_row fr) c <$>
             disp (self fr) c !! row_listindex fr =
           Some (if decide (stage_of c ≤ n)
                 then match c, column_text c e with
                      | cancelreason_disp, _ => Label_grid_remove l
                      | _, Ok v => written (display_row fr) (grid_column c) v l
                      | _, Raise _ => l
                      end
                 else l))
      ∧ (∀ c, stage_of c ≤ n → c ≠ cancelreason_disp →
           is_ok (column_text c e) = true)) as [Hsub Hn].
  { clear Hrun Hi Hd Hs Hl. revert Hb. unfold body_result, stages.
    destruct (getitem e "std") as [v1|x1] eqn:H1;
      [|intros Hb; cbn [first_raise void] in Hb; injection Hb as ->;
        split; [unfold_after; by use_lookups|partial_row 0]].
    destruct (destination_name e) as [v2|x2] eqn:H2;
      [|intros Hb; cbn [first_raise void] in Hb; injection Hb as ->;
        split; [unfold_after; by use_lookups|partial_row 1]].
    destruct (platform_text e) as [v3|x3] eqn:H3;
      [|intros Hb; cbn [first_raise void] in Hb; injection Hb as ->;
        split; [unfold_after; by use_lookups|partial_row 2]].
    destruct (getitem e "etd") as [v4|x4] eqn:H4;
      [|intros Hb; cbn [first_raise void] in Hb; injection Hb as ->;
        split; [unfold_after; by use_lookups|partial_row 3]].
    destruct (getitem e "length") as [v5|x5] eqn:H5;
      [|intros Hb; cbn [first_raise void] in Hb; injection Hb as ->;
        split; [unfold_after; by use_lookups|partial_row 4]].
    destruct (cancel_wanted e) as [w6|x6] eqn:H6;
      [|intros Hb; cbn [first_raise void] in Hb; injection Hb as ->;
        split; [unfold_after; by use_lookups|partial_row 5]].
    destruct (delay_wanted e) as [w7|x7] eqn:H7; [done|].
    intros Hb; cbn [first_raise void] in Hb; injection Hb as ->. destruct w6.
    { destruct (cancel_wanted_true _ H6) as (v6 & Hv6 & Hn6).
      by rewrite (delay_not_wanted _ _ Hv6 Hn6) in H7. }
    split; [unfold_after; by use_lookups|partial_row 6]. }
  split; [rewrite Hd; unfold rows_used; lia|].
  split.
  { rewrite Hs. unfold status_after. by rewrite Hb. }
  split.
  { intros c j Hj. rewrite Hl. by rewrite decide_False. }
  destruct Hn as (n & Hn & Hst & Hp & Hlab & Hok). exists n.
  split; [done|]. split; [done|]. split; [done|]. split; [|done].
  intros c l Hcl. rewrite Hl, decide_True by done. by apply Hlab.
Qed.

(** ** Blanking the unused rows *)

Lemma lookup_update_label_at c i f d c' j :
  disp (update_label c i f d) c' !! j = at_slot c i f c' j (disp d c' !! j).
Proof.
  rewrite lookup_update_label. unfold at_slot.
  repeat case_decide; subst; done.
Qed.

Lemma subscript_run c i fr :
  i < length (disp (self fr) c) → subscript c i fr = (Ok (c, i), fr).
Proof.
  intros H. unfold subscript.
  by destruct (lookup_lt_is_Some_2 _ _ H) as [l ->].
Qed.

Lemma subscript_out_of_range c i fr :
  length (disp (self fr) c) ≤ i → subscript c i fr = (Raise IndexError, fr).
Proof. intros H. unfold subscript. by rewrite lookup_ge_None_2. Qed.

Lemma blank_slot_run item fr :
  ten_labels (self fr) → item < 10 →
  ∃ fr', blank_slot item fr = (Ok tt, fr')
    ∧ row_listindex fr' = row_listindex fr
    ∧ display_row fr' = display_row fr
    ∧ same_window (self fr) (self fr')
    ∧ ten_labels (self fr')
    ∧ ∀ c j, disp (self fr') c !! j =
         if decide (j = item)
         then Label_grid_remove <$> disp (self fr) c !! j
         else disp (self fr) c !! j.
Proof.
  intros Hten Hi.
  unfold blank_slot, row_columns, subscript_all.
  unfold bind. rewrite !subscript_run by (by rewrite Hten).
  unfold ret, grid_remove_all, bind, grid_remove, on_self, modify.
  cbn [fst snd self display_row row_listindex].
  eexists. split; [reflexivity|]. cbn [self display_row row_listindex].
  split; [done|]. split; [done|]. split; [done|].
  split; [by repeat apply ten_labels_update_label|].
  intros c j. rewrite !lookup_update_label_at.
  destruct c; unfold at_slot; simpl; by case_decide.
Qed.

Lemma showing_lookup d c j :
  showing d (c, j) = match disp d c !! j with
                     | Some l => shown l
                     | None => false
                     end.
Proof. done. Qed.

Lemma blank_rows_run n : ∀ item fr,
  ten_labels (self fr) → item + n ≤ 10 →
  ∃ fr', blank_rows n item fr = (Ok tt, fr')
    ∧ row_listindex fr' = row_listindex fr
    ∧ display_row fr' = display_row fr
    ∧ same_window (self fr) (self fr')
    ∧ ten_labels (self fr')
    ∧ ∀ c j, disp (self fr') c !! j =
         if decide (item ≤ j < item + shown_run (self fr) n item)
         then Label_grid_remove <$> disp (self fr) c !! j
         else disp (self fr) c !! j.
Proof.
  induction n as [|n IH]; intros item fr Hten Hn.
  - exists fr. simpl. repeat split; try done.
    intros c j. by rewrite decide_False by lia.
  - cbn [blank_rows shown_run]. unfold bind at 1.
    rewrite subscript_run by (rewrite Hten; lia).
    unfold bind at 1, on_grid, gets. fold (showing (self fr) (time_disp, item)).
    destruct (showing (self fr) (time_disp, item)) eqn:Hs.
    + destruct (blank_slot_run item fr) as
        (fr1 & Hrun & Hi & Hd & Hw & Hten1 & Hl); [done|lia|].
      destruct (IH (S item) fr1) as
        (fr2 & Hrun2 & Hi2 & Hd2 & Hw2 & Hten2 & Hl2); [done|lia|].
      exists fr2. unfold bind at 1. rewrite Hrun, Hrun2.
      split; [done|]. split; [congruence|]. split; [congruence|].
      split.
      { destruct Hw as (?&?&?&?), Hw2 as (?&?&?&?).
        repeat split; congruence. }
      split; [done|].
      intros c j. rewrite Hl2, Hl.
      assert (shown_run (self fr1) n (S item) = shown_run (self fr) n (S item))
        as ->.
      { clear -Hl. generalize (S item), (Nat.lt_succ_diag_r item).
        induction n as [|n IHn]; intros k Hk; [done|].
        cbn [shown_run]. rewrite !showing_lookup, Hl.
        rewrite decide_False by lia. rewrite IHn by lia. done. }
      destruct (decide (j = item)) as [->|Hj].
      * rewrite decide_False by lia. by rewrite decide_True by lia.
      * destruct (decide (S item ≤ j < S item + shown_run (self fr) n (S item))).
        -- by rewrite decide_True by lia.
        -- by rewrite decide_False by lia.
    + exists fr. repeat split; try done.
      intros c j. by rewrite decide_False by lia.
Qed.

(** ** The loops on any input *)

Lemma tolerated_or_crash e :
  tolerated e ∨ ∃ x, body_result e = Raise x ∧ ∀ k, x ≠ KeyError k.
Proof.
  unfold tolerated. destruct (body_result e) as [[]|[k| |]]; eauto.
Qed.

Lemma service_turn_any e fr :
  ten_labels (self fr) →
  ∃ r fr', service_turn e fr = (r, fr')
    ∧ ten_labels (self fr')
    ∧ title (self fr') = title (self fr)
    ∧ (r = Ok tt →
       row_listindex fr' = S (row_listindex fr) ∧ row_listindex fr < 10)
    ∧ ∀ c j, j ≠ row_listindex fr →
        disp (self fr') c !! j = disp (self fr) c !! j.
Proof.
  intros Hten. destruct (decide (row_listindex fr < 10)) as [Hi|Hi].
  - destruct (tolerated_or_crash e) as [Ht|(x & Hb & Hx)].
    + destruct (service_turn_tolerated e fr) as
        (fr' & Hrun & Hi' & _ & Hten' & Ht' & _ & _ & _ & Hl); [done..|].
      exists (Ok tt), fr'. repeat split; try done.
      intros c j Hj. by rewrite Hl, decide_False.
    + destruct (service_turn_crash e fr x) as (fr' & Hrun & ? & ? & ?);
        [done..|].
      exists (Raise x), fr'. by repeat split.
  - exists (Raise IndexError), fr.
    rewrite service_turn_out_of_range by (done || lia). by repeat split.
Qed.

Lemma for_services_any es : ∀ fr,
  ten_labels (self fr) → row_listindex fr ≤ 10 →
  ∃ r fr', for_services es fr = (r, fr')
    ∧ ten_labels (self fr')
    ∧ title (self fr') = title (self fr)
    ∧ (r = Ok tt →
       row_listindex fr' = row_listindex fr + length es
       ∧ row_listindex fr + length es ≤ 10)
    ∧ ∀ c j, j < row_listindex fr →
        disp (self fr') c !! j = disp (self fr) c !! j.
Proof.
  induction es as [|e es IH]; intros fr Hten Hle.
  - exists (Ok tt), fr. simpl. repeat split; try done; lia.
  - destruct (service_turn_any e fr Hten) as
      (r1 & fr1 & Hrun & Hten1 & Ht1 & Hok1 & Hl1).
    cbn [for_services]. unfold bind at 1. rewrite Hrun.
    destruct r1 as [[]|x].
    + destruct (Hok1 eq_refl) as [Hi1 Hlt].
      destruct (IH fr1) as (r2 & fr2 & Hrun2 & Hten2 & Ht2 & Hok2 & Hl2);
        [done|lia|].
      exists r2, fr2. rewrite Hrun2. split; [done|]. split; [done|].
      split; [congruence|]. split.
      * intros Hr2. destruct (Hok2 Hr2). simpl. lia.
      * intros c j Hj. rewrite Hl2 by lia. apply Hl1. lia.
    + exists (Raise x), fr1. split; [done|]. split; [done|].
      split; [done|]. split; [done|].
      intros c j Hj. apply Hl1. lia.
Qed.

(** Tolerated services beyond the tenth slot: the eleventh turn raises. *)
Lemma for_services_overflow es : ∀ fr,
  ten_labels (self fr) → row_listindex fr ≤ 10 →
  10 < row_listindex fr + length es →
  Forall tolerated (take (10 - row_listindex fr) es) →
  ∃ fr', for_services es fr = (Raise IndexError, fr')
    ∧ ∀ c j, disp (self fr') c !! j =
        slot_after (take (10 - row_listindex fr) es) (row_listindex fr)
                   (display_row fr) c j (disp (self fr) c !! j).
Proof.
  induction es as [|e es IH]; intros fr Hten Hle Hlen Hall.
  - simpl in Hlen. lia.
  - cbn [for_services]. unfold bind at 1.
    destruct (decide (row_listindex fr = 10)) as [Hi|Hi].
    + rewrite service_turn_out_of_range by (done || lia).
      exists fr. split; [done|]. intros c j.
      rewrite Hi. unfold slot_after. simpl. by case_decide.
    + replace (10 - row_listindex fr) with (S (10 - S (row_listindex fr)))
        in * by lia.
      rewrite firstn_cons in Hall. apply Forall_cons in Hall as [He Hall].
      destruct (service_turn_tolerated e fr) as
        (fr1 & Hrun & Hi1 & Hd1 & Hten1 & _ & _ & _ & _ & Hl1);
        [split; [done|lia]|done|].
      rewrite Hrun.
      destruct (IH fr1) as (fr2 & Hrun2 & Hl2);
        [done|lia|simpl in Hlen; lia|by rewrite Hi1|].
      exists fr2. split; [done|].
      intros c j. rewrite Hl2, Hl1, Hi1, Hd1. rewrite firstn_cons.
      unfold slot_after.
      destruct (decide (j = row_listindex fr)) as [->|Hj].
      * rewrite decide_False by lia. rewrite decide_True by lia.
        replace (row_listindex fr - row_listindex fr) with 0 by lia.
        simpl. unfold rows_before. simpl. by rewrite Nat.add_0_r.
      * destruct (decide (row_listindex fr ≤ j)) as [Hle'|Hle'].
        -- rewrite decide_True by lia.
           replace (j - row_listindex fr) with (S (j - S (row_listindex fr)))
             by lia.
           rewrite rows_before_cons. cbn [lookup list_lookup].
           by rewrite Nat.add_assoc.
        -- by rewrite decide_False by lia.
Qed.

Lemma blank_rows_any n : ∀ item fr,
  ten_labels (self fr) →
  ∃ r fr', blank_rows n item fr = (r, fr')
    ∧ ten_labels (self fr')
    ∧ same_window (self fr) (self fr')
    ∧ row_listindex fr' = row_listindex fr
    ∧ display_row fr' = display_row fr
    ∧ ∀ c j, j < item → disp (self fr') c !! j = disp (self fr) c !! j.
Proof.
  induction n as [|n IH]; intros item fr Hten.
  - exists (Ok tt), fr. by repeat split.
  - cbn [blank_rows]. unfold bind at 1.
    destruct (decide (item < 10)) as [Hi|Hi].
    + rewrite subscript_run by (by rewrite Hten).
      unfold bind at 1, on_grid, gets.
      destruct (match label_at _ _ with Some l => shown l | None => false end).
      * destruct (blank_slot_run item fr) as
          (fr1 & Hrun & Hi1 & Hd1 & Hw1 & Hten1 & Hl1); [done..|].
        destruct (IH (S item) fr1 Hten1) as
          (r2 & fr2 & Hrun2 & Hten2 & Hw2 & Hi2 & Hd2 & Hl2).
        exists r2, fr2. unfold bind at 1. rewrite Hrun, Hrun2.
        split; [done|]. split; [done|]. split.
        { destruct Hw1 as (?&?&?&?), Hw2 as (?&?&?&?).
          repeat split; congruence. }
        split; [congruence|]. split; [congruence|].
        intros c j Hj. rewrite Hl2 by lia. rewrite Hl1.
        by rewrite decide_False by lia.
      * exists (Ok tt), fr. by repeat split.
    + rewrite subscript_out_of_range by (rewrite Hten; lia).
      exists (Raise IndexError), fr. by repeat split.
Qed.

(** ** [display_info] as a whole *)

Lemma set_title_same d : set_title (title d) d = d.
Proof. by destruct d. Qed.

Lemma display_info_services g es d :
  has_services g es → title_ready g d →
  display_info (Some g) d =
  let (r, fr) := (populate es;; place_status)
                   (mkFrame (set_title (title_after g (title d)) d) 2 0) in
  (r, self fr).
Proof.
  intros (ts & sv & Hts & Hn & Hsv & Hes) Ht.
  unfold display_info, display_info_frame, check_data, populate, place_status.
  rewrite Hts, Hn. unfold title_after, title_ready in *.
  unfold bind, ret, gets, lift, on_self, modify. cbn [self title].
  unfold getitem at 2. rewrite Hts.
  destruct (String.eqb (title d) "tk") eqn:Htk.
  - apply String.eqb_eq in Htk. specialize (Ht Htk).
    destruct (getitem (PyDict g) "locationName") as [n|] eqn:Hn'; [|done].
    cbn [self display_row row_listindex]. by rewrite Hsv, Hes.
  - rewrite Hsv, Hes. by rewrite set_title_same.
Qed.

Lemma shown_run_ext d1 d2 n : ∀ item,
  (∀ j, item ≤ j → disp d1 time_disp !! j = disp d2 time_disp !! j) →
  shown_run d1 n item = shown_run d2 n item.
Proof.
  induction n as [|n IH]; intros item H; [done|].
  cbn [shown_run]. rewrite !showing_lookup, H by lia.
  rewrite (IH (S item)); [done|]. intros j Hj. apply H. lia.
Qed.

Lemma slot_after_beyond es i0 r0 c j o :
  i0 + length es ≤ j → slot_after es i0 r0 c j o = o.
Proof.
  intros H. unfold slot_after. case_decide; [|done].
  by rewrite lookup_ge_None_2 by lia.
Qed.

Lemma display_info_tolerated g es d :
  ten_labels d → has_services g es → title_ready g d →
  Forall tolerated es → length es ≤ 10 → service_numrows ≤ 10 →
  ∃ d', display_info (Some g) d = (Ok tt, d')
    ∧ ten_labels d'
    ∧ title d' = title_after g (title d)
    ∧ statusbar d' = Label_grid (2 + rows_before es (length es)) 0
                                (foldl status_after (statusbar d) es)
    ∧ Esc_to_exit d' = Label_grid (2 + rows_before es (length es)) 4
                                  (Esc_to_exit d)
    ∧ curtime d' = curtime d
    ∧ ∀ c j, disp d' c !! j =
        if decide (length es ≤ j <
                   length es + shown_run d (service_numrows - length es)
                                         (length es))
        then Label_grid_remove <$> disp d c !! j
        else slot_after es 0 2 c j (disp d c !! j).
Proof.
  intros Hten Hg Ht Hall Hlen Hrows.
  rewrite (display_info_services g es d Hg Ht).
  set (fr0 := mkFrame (set_title (title_after g (title d)) d) 2 0).
  destruct (for_services_tolerated es fr0) as
    (fr1 & Hrun & Hi & Hd & Hten1 & Ht1 & Hs1 & Hx1 & Hc1 & Hl1);
    [done|simpl; lia|done|].
  simpl in Hi, Hd, Ht1, Hs1, Hx1, Hc1, Hl1.
  assert (∀ n, shown_run (self fr1) n (length es) = shown_run d n (length es))
    as Hsr.
  { intros n. apply shown_run_ext. intros j Hj.
    rewrite Hl1. by rewrite slot_after_beyond by lia. }
  unfold populate. unfold bind at 1. unfold bind at 1. rewrite Hrun.
  unfold bind at 1, gets at 1. rewrite Hi.
  destruct (length es <? service_numrows) eqn:Hlt.
  - apply Nat.ltb_lt in Hlt.
    destruct (blank_rows_run (service_numrows - length es) (length es) fr1)
      as (fr2 & Hrun2 & Hi2 & Hd2 & (Hw1 & Hw2 & Hw3 & Hw4) & Hten2 & Hl2);
      [done|lia|].
    rewrite Hrun2. unfold place_status, bind, gets, on_self, modify.
    eexists. split; [reflexivity|]. cbn [self title statusbar Esc_to_exit
      curtime disp set_statusbar set_Esc_to_exit].
    split; [done|]. split; [congruence|].
    split; [by rewrite Hd2, Hd, Hw2, Hs1|].
    split; [by rewrite Hd2, Hd, Hw3, Hx1|].
    split; [congruence|].
    intros c j. rewrite Hl2, Hsr. case_decide; [|apply Hl1].
    rewrite Hl1. by rewrite slot_after_beyond by lia.
  - apply Nat.ltb_ge in Hlt.
    unfold place_status, ret, bind, gets, on_self, modify.
    eexists. split; [reflexivity|]. cbn [self title statusbar Esc_to_exit
      curtime disp set_statusbar set_Esc_to_exit].
    split; [done|]. split; [done|].
    split; [by rewrite Hd, Hs1|].
    split; [by rewrite Hd, Hx1|].
    split; [done|].
    intros c j. replace (service_numrows - length es) with 0 by lia.
    simpl. rewrite decide_False by lia. apply Hl1.
Qed.

(** ** Responses whose services have all their fields *)

Lemma complete_tolerated e : complete e → tolerated e.
Proof. by left. Qed.

Lemma complete_label_after e r c l :
  complete e → stage_of c ≤ 5 →
  ∃ v, column_text c e = Ok v
    ∧ label_after e r c l = written r (grid_column c) v l.
Proof.
  unfold complete, body_result, stages. intros Hb Hc.
  destruct (getitem e "std") as [v1|] eqn:H1; [|done].
  destruct (destination_name e) as [v2|] eqn:H2; [|done].
  destruct (platform_text e) as [v3|] eqn:H3; [|done].
  destruct (getitem e "etd") as [v4|] eqn:H4; [|done].
  destruct (getitem e "length") as [v5|] eqn:H5; [|done].
  destruct c; simpl in Hc; try lia; eexists;
    (split; [unfold column_text; eassumption|]);
    unfold_after; by use_lookups.
Qed.

Lemma shown_run_prefix d m n : ∀ item,
  prefix_shown d m → item + n ≤ 10 → m ≤ item + n →
  m ≤ item + shown_run d n item.
Proof.
  induction n as [|n IH]; intros item Hp Hn Hm; [simpl; lia|].
  cbn [shown_run]. destruct (decide (item < m)) as [Hlt|]; [|lia].
  destruct (Hp item) as [Hs _]; [lia|]. rewrite Hs by done.
  specialize (IH (S item) Hp). lia.
Qed.

Lemma prefix_shown_init : prefix_shown DisplayApp_init 0.
Proof.
  intros j Hj. split; [lia|]. intros _ c.
  unfold showing, label_at, DisplayApp_init. cbn [disp fst snd].
  by rewrite lookup_replicate_2 by lia.
Qed.

(** C1, as the code has it: on a display whose shown slots are the first
    [m], with at most ten configured rows, a response of [N] services that
    have all their fields returns normally, writes service [i] into the
    five labels of slot [i] on a display row that grows with [i], and
    leaves every slot from [N] on with nothing on the grid, so that the shown
    slots are again the first [N]. *)
Theorem complete_services_fill_first_rows g es d m :
  service_numrows ≤ 10 → ten_labels d →
  prefix_shown d m → m ≤ service_numrows →
  has_services g es → title_ready g d →
  Forall complete es → length es ≤ service_numrows →
  ∃ d', display_info (Some g) d = (Ok tt, d')
    ∧ ten_labels d'
    ∧ prefix_shown d' (length es)
    ∧ (∀ i e c l, es !! i = Some e → primary c →
         disp d c !! i = Some l →
         ∃ v, column_text c e = Ok v
           ∧ disp d' c !! i =
             Some (written (2 + rows_before es i) (grid_column c) v l))
    ∧ (∀ j c, length es ≤ j < 10 → showing d' (c, j) = false).
Proof.
  intros Hrows Hten Hp Hm Hg Ht Hall Hlen.
  destruct (display_info_tolerated g es d) as
    (d' & Hrun & Hten' & _ & _ & _ & _ & Hl);
    [done|done|done| |lia|done|].
  { eapply Forall_impl; [done|]. apply complete_tolerated. }
  exists d'. split; [done|]. split; [done|].
  assert (∀ i e c l, es !! i = Some e → primary c →
            disp d c !! i = Some l →
            ∃ v, column_text c e = Ok v
              ∧ disp d' c !! i =
                Some (written (2 + rows_before es i) (grid_column c) v l))
    as Hfill.
  { intros i e c l Hi Hc Hdl.
    pose proof (lookup_lt_Some _ _ _ Hi) as Hlt.
    rewrite Forall_lookup in Hall. specialize (Hall i e Hi).
    destruct (complete_label_after e (2 + rows_before es i) c l Hall Hc)
      as (v & Hv & Hla).
    exists v. split; [done|].
    rewrite Hl, decide_False by lia. unfold slot_after.
    rewrite decide_True by lia. rewrite Nat.sub_0_r, Hi, Hdl.
    by rewrite <- Hla. }
  assert (∀ j c, length es ≤ j < 10 → showing d' (c, j) = false) as Hhid.
  { intros j c [Hj1 Hj2]. rewrite showing_lookup, Hl.
    case_decide as Hrun'.
    - by destruct (disp d c !! j).
    - rewrite slot_after_beyond by (simpl; lia).
      pose proof (shown_run_prefix d m (service_numrows - length es)
                    (length es) Hp) as Hsr.
      destruct (Hp j Hj2) as [_ Hhide].
      rewrite <- showing_lookup. apply Hhide. lia. }
  split; [|done].
  intros j Hj. split; [|intros Hge c; apply Hhid; lia].
  intros Hlt. destruct (lookup_lt_is_Some_2 es j Hlt) as [e He].
  assert (j < length (disp d time_disp)) as Hjd by (rewrite Hten; lia).
  destruct (lookup_lt_is_Some_2 _ j Hjd) as [l Hdl].
  destruct (Hfill j e time_disp l He) as (v & _ & Hd');
    [unfold primary; simpl; lia|done|].
  by rewrite showing_lookup, Hd'.
Qed.

(** ** Responses with a service that lacks a field *)

Lemma status_after_complete l e : complete e → status_after l e = l.
Proof. unfold complete, status_after. by intros ->. Qed.

Lemma foldl_status_after_complete es : ∀ l,
  Forall complete es → foldl status_after l es = l.
Proof.
  induction es as [|e es IH]; intros l Hall; [done|].
  apply Forall_cons in Hall as [He Hall]. simpl.
  rewrite status_after_complete by done. by apply IH.
Qed.


Lemma for_services_app es1 es2 fr :
  for_services (es1 ++ es2) fr =
  match for_services es1 fr with
  | (Ok _, fr1) => for_services es2 fr1
  | (Raise x, fr1) => (Raise x, fr1)
  end.
Proof.
  revert fr. induction es1 as [|e es1 IH]; intros fr; [done|].
  cbn [app for_services]. unfold bind.
  destruct (service_turn e fr) as [[[]|x] fr1]; [apply IH|done].
Qed.


(** [display_info] goes through [loop_frame]: after [n] turns that end
    normally or with a [KeyError], the rest of the call is the loop over
    the other services, from that frame. *)
Lemma display_info_through_loop_frame g es d n :
  ten_labels d → has_services g es → title_ready g d →
  length es ≤ 10 → Forall tolerated (take n es) →
  display_info (Some g) d =
  let (r, fr) := (populate (drop n es);; place_status) (loop_frame g d es n) in
  (r, self fr).
Proof.
  intros Hten Hg Ht Hlen Hall.
  rewrite (display_info_services g es d Hg Ht).
  unfold loop_frame.
  set (fr0 := mkFrame (set_title (title_after g (title d)) d) 2 0).
  destruct (for_services_tolerated (take n es) fr0) as (fr1 & Hrun & _);
    [done| |done|].
  { rewrite length_take. simpl. lia. }
  rewrite Hrun. cbn [snd]. unfold populate, bind.
  replace (for_services es fr0)
    with (for_services (take n es ++ drop n es) fr0)
    by (by rewrite take_drop).
  by rewrite for_services_app, Hrun.
Qed.



(** ** The reason rows *)

Lemma display_info_rendered g es d :
  ten_labels d → has_services g es → title_ready g d →
  Forall tolerated es → length es ≤ 10 →
  ∀ c j, j < length es →
    disp (display_info (Some g) d).2 c !! j =
    slot_after es 0 2 c j (disp d c !! j).
Proof.
  intros Hten Hg Ht Hall Hlen c j Hj.
  rewrite (display_info_services g es d Hg Ht).
  set (fr0 := mkFrame (set_title (title_after g (title d)) d) 2 0).
  destruct (for_services_tolerated es fr0) as
    (fr1 & Hrun & Hi & _ & Hten1 & _ & _ & _ & _ & Hl1);
    [done|simpl; lia|done|].
  simpl in Hi, Hl1.
  unfold populate. unfold bind at 1. unfold bind at 1. rewrite Hrun.
  unfold bind at 1, gets at 1. rewrite Hi.
  destruct (length es <? service_numrows).
  - destruct (blank_rows_any (service_numrows - length es) (length es) fr1)
      as (r2 & fr2 & Hrun2 & _ & _ & _ & _ & Hl2); [done|].
    rewrite Hrun2. destruct r2 as [[]|x].
    + unfold place_status, bind, gets, on_self, modify. cbn [snd self disp
        set_statusbar set_Esc_to_exit]. by rewrite Hl2, Hl1.
    + cbn [snd]. by rewrite Hl2, Hl1.
  - unfold place_status, ret, bind, gets, on_self, modify. cbn [snd self disp
      set_statusbar set_Esc_to_exit]. apply Hl1.
Qed.

Lemma shown_written r col v l : shown (written r col v l) = true.
Proof. done. Qed.

Lemma shown_grid_remove l : shown (Label_grid_remove l) = false.
Proof. done. Qed.

(** C4, as the code has it: at the end of the refresh, a service with a
    true [isCancelled] and a cancel reason shows the cancel row and not the
    delay row; one without cancel reason and with a delay reason shows the
    delay row and not the cancel row; one that is not cancelled and yet
    carries a cancel reason shows neither, whatever its delay reason. *)
Theorem reason_rows_follow_the_cancel_reason g es d i e cancelled reason :
  ten_labels d → has_services g es → title_ready g d →
  Forall tolerated es → length es ≤ 10 →
  es !! i = Some e → complete e →
  getitem e "isCancelled" = Ok cancelled →
  getitem e "cancelReason" = Ok reason →
  let d' := (display_info (Some g) d).2 in
  (truthy cancelled = true → is_None reason = false →
     showing d' (cancelreason_disp, i) = true
     ∧ showing d' (delayreason_disp, i) = false)
  ∧ (is_None reason = true →
     ∀ delay, getitem e "delayReason" = Ok delay → is_None delay = false →
       showing d' (delayreason_disp, i) = true
       ∧ showing d' (cancelreason_disp, i) = false)
  ∧ (truthy cancelled = false → is_None reason = false →
     showing d' (cancelreason_disp, i) = false
     ∧ showing d' (delayreason_disp, i) = false).
Proof.
  intros Hten Hg Ht Hall Hlen Hi He Hc Hr d'.
  pose proof (lookup_lt_Some _ _ _ Hi) as Hlt.
  assert (∀ c, showing d' (c, i) =
               match disp d c !! i with
               | Some l => shown (label_after e (2 + rows_before es i) c l)
               | None => false
               end) as Hshow.
  { intros c. rewrite showing_lookup. unfold d'.
    rewrite (display_info_rendered g es) by done. unfold slot_after.
    rewrite decide_True by lia. rewrite Nat.sub_0_r, Hi.
    by destruct (disp d c !! i). }
  assert (∀ c, ∃ l, disp d c !! i = Some l) as Hsome.
  { intros c. apply lookup_lt_is_Some_2. rewrite Hten. lia. }
  destruct (Hsome cancelreason_disp) as [lc Hlc].
  destruct (Hsome delayreason_disp) as [ld Hld].
  rewrite !Hshow, Hlc, Hld. clear Hshow Hsome Hlc Hld.
  revert He. unfold complete, body_result, stages.
  destruct (getitem e "std") as [v1|] eqn:H1; [|done].
  destruct (destination_name e) as [v2|] eqn:H2; [|done].
  destruct (platform_text e) as [v3|] eqn:H3; [|done].
  destruct (getitem e "etd") as [v4|] eqn:H4; [|done].
  destruct (getitem e "length") as [v5|] eqn:H5; [|done].
  intros _.
  assert (cancel_wanted e = Ok (truthy cancelled && negb (is_None reason)))
    as H6.
  { unfold cancel_wanted. rewrite Hc. simpl. rewrite Hr.
    by destruct (truthy cancelled). }
  split; [|split].
  - intros Hcan Hreason.
    pose proof (delay_not_wanted _ _ Hr Hreason) as H7.
    unfold_after. use_lookups. by rewrite Hcan, Hreason.
  - intros Hreason delay Hdl Hdelay.
    assert (delay_wanted e = Ok true) as H7.
    { unfold delay_wanted. rewrite Hr. simpl. rewrite Hreason, Hdl.
      simpl. by rewrite Hdelay. }
    unfold_after. use_lookups. rewrite Hreason.
    by rewrite andb_false_r.
  - intros Hcan Hreason.
    pose proof (delay_not_wanted _ _ Hr Hreason) as H7.
    unfold_after. use_lookups. by rewrite Hcan.
Qed.

(** ** More services than labels *)

Lemma rows_before_take es n i :
  i ≤ n → rows_before (take n es) i = rows_before es i.
Proof. intros H. unfold rows_before. by rewrite take_take, Nat.min_l. Qed.

(** C2, as the code has it: nothing keeps the slot index within the ten
    labels.  A response with more than ten services makes [display_info]
    raise; when the first ten services are ones on which the body ends
    normally or with a [KeyError], they are written into the ten slots and
    the exception is the [IndexError] of the eleventh turn. *)
Theorem more_services_than_labels_raise g es d :
  ten_labels d → has_services g es → title_ready g d →
  10 < length es →
  (∃ x d', display_info (Some g) d = (Raise x, d'))
  ∧ (Forall tolerated (take 10 es) →
     ∃ d', display_info (Some g) d = (Raise IndexError, d')
       ∧ ∀ i e c l, i < 10 → es !! i = Some e → complete e →
           primary c → disp d c !! i = Some l →
           ∃ v, column_text c e = Ok v
             ∧ disp d' c !! i =
               Some (written (2 + rows_before es i) (grid_column c) v l)).
Proof.
  intros Hten Hg Ht Hlen.
  rewrite (display_info_services g es d Hg Ht).
  set (fr0 := mkFrame (set_title (title_after g (title d)) d) 2 0).
  split.
  - destruct (for_services_any es fr0) as (r & fr1 & Hrun & _ & _ & Hok & _);
      [done|simpl; lia|].
    unfold populate. unfold bind at 1. unfold bind at 1. rewrite Hrun.
    destruct r as [[]|x]; [|by eauto].
    destruct (Hok eq_refl) as [_ Hle]. simpl in Hle. lia.
  - intros Hall.
    destruct (for_services_overflow es fr0) as (fr1 & Hrun & Hl);
      [done|simpl; lia|simpl; lia|done|].
    unfold populate. unfold bind at 1. unfold bind at 1. rewrite Hrun.
    eexists. split; [done|].
    intros i e c l Hi He Hcomp Hc Hdl.
    destruct (complete_label_after e (2 + rows_before es i) c l Hcomp Hc)
      as (v & Hv & Hla).
    exists v. split; [done|].
    unfold fr0 in Hl.
    cbn [row_listindex display_row self disp set_title Nat.sub] in Hl.
    cbn [snd self]. rewrite Hl. unfold slot_after.
    rewrite decide_True by lia.
    rewrite Nat.sub_0_r, lookup_take_lt, He, Hdl by lia.
    rewrite rows_before_take by lia. by rewrite <- Hla.
Qed.

(** ** No data *)

(** What the loop and the blanking leave on the grid from the slot after
    the last service on. *)
Lemma display_info_hides_rest g es d m :
  service_numrows ≤ 10 → ten_labels d →
  prefix_shown d m → m ≤ service_numrows →
  has_services g es → title_ready g d →
  Forall tolerated es → length es ≤ service_numrows →
  ∀ c j, length es ≤ j < 10 → showing (refresh d (Some g)) (c, j) = false.
Proof.
  intros Hrows Hten Hp Hm Hg Ht Hall Hlen c j [Hj1 Hj2].
  destruct (display_info_tolerated g es d) as
    (d' & Hrun & _ & _ & _ & _ & _ & Hl); [done|done|done|done|lia|done|].
  unfold refresh. rewrite Hrun. cbn [snd].
  rewrite showing_lookup, Hl. case_decide as Hrun'.
  - by destruct (disp d c !! j).
  - rewrite slot_after_beyond by (simpl; lia).
    pose proof (shown_run_prefix d m (service_numrows - length es)
                  (length es) Hp) as Hsr.
    destruct (Hp j Hj2) as [_ Hhide].
    rewrite <- showing_lookup. apply Hhide. lia.
Qed.

(** C3, as the code has it: without a response, or with a response that
    has no [trainServices], the status bar gets its message and goes to row
    2, and nothing else is touched: no label is written and no label is
    taken off the grid, so the rows that a refresh before has put on the
    grid stay there, the first of them on the row of the status bar.  The
    path beside it does what this one misses: a response whose list of
    services is empty takes every slot off the grid, on a display whose
    shown slots are a prefix; it writes no message to the status bar. *)
Theorem no_data_leaves_the_rows GSBR d :
  match GSBR with Some g => data_OK g = false | None => True end →
  (∃ d', display_info GSBR d = (Ok tt, d')
     ∧ text (statusbar d') =
       PyStr (match GSBR with
              | None => "No data received"
              | Some _ => "No services available"
              end)
     ∧ grid_info (statusbar d') = Some (2, 0)
     ∧ grid_info (Esc_to_exit d') = Some (2, 4)
     ∧ title d' = title d
     ∧ ∀ c, disp d' c = disp d c)
  ∧ (∀ g m, ten_labels d → service_numrows ≤ 10 →
       prefix_shown d m → m ≤ service_numrows →
       has_services g [] → title_ready g d →
       ∃ d', display_info (Some g) d = (Ok tt, d')
         ∧ (∀ c j, j < 10 → showing d' (c, j) = false)
         ∧ text (statusbar d') = text (statusbar d)
         ∧ grid_info (statusbar d') = Some (2, 0)).
Proof.
  intros H. split.
  - unfold display_info, display_info_frame, check_data.
    destruct GSBR as [g|].
    + unfold data_OK in H.
      destruct (dict_get g "trainServices") as [ts|].
      * destruct (is_None ts); [|done]. by eexists.
      * by eexists.
    + by eexists.
  - intros g m Hten Hrows Hp Hm Hg Ht.
    destruct (display_info_tolerated g [] d) as
      (d' & Hrun & _ & _ & Hs & _);
      [done|done|done|constructor|simpl; lia|done|].
    exists d'. split; [exact Hrun|]. split.
    + intros c j Hj.
      pose proof (display_info_hides_rest g [] d m Hrows Hten Hp Hm Hg Ht
                    (Forall_nil_2 _) (Nat.le_0_l _) c j) as Hhide.
      unfold refresh in Hhide. rewrite Hrun in Hhide.
      apply Hhide. simpl. lia.
    + by rewrite Hs.
Qed.

(** ** The window title *)

Lemma for_services_keeps es : ∀ fr,
  ten_labels (self fr) →
  ten_labels (self (for_services es fr).2)
  ∧ title (self (for_services es fr).2) = title (self fr).
Proof.
  induction es as [|e es IH]; intros fr Hten; [done|].
  destruct (service_turn_any e fr Hten) as
    (r1 & fr1 & Hrun & Hten1 & Ht1 & _).
  cbn [for_services].
  assert ((service_turn e;; for_services es)%py fr =
          match r1 with
          | Ok _ => for_services es fr1
          | Raise x => (Raise x, fr1)
          end) as ->.
  { unfold bind at 1. by rewrite Hrun. }
  destruct r1 as [[]|x]; [|done].
  destruct (IH fr1 Hten1) as [? ?]. split; [done|congruence].
Qed.

Lemma blank_rows_keeps n item fr :
  ten_labels (self fr) →
  ten_labels (self (blank_rows n item fr).2)
  ∧ title (self (blank_rows n item fr).2) = title (self fr).
Proof.
  intros Hten.
  destruct (blank_rows_any n item fr Hten) as
    (r & fr' & Hrun & Hten' & (Ht & _) & _).
  by rewrite Hrun.
Qed.

Lemma display_info_any GSBR d :
  ten_labels d →
  ten_labels (refresh d GSBR)
  ∧ title (refresh d GSBR) =
    match GSBR with
    | Some g => if data_OK g then title_after g (title d) else title d
    | None => title d
    end.
Proof.
  intros Hten. unfold refresh.
  destruct GSBR as [g|]; [|done].
  unfold data_OK.
  destruct (dict_get g "trainServices") as [ts|] eqn:Hts;
    [|by unfold display_info, display_info_frame, check_data; rewrite Hts].
  destruct (is_None ts) eqn:Hn;
    [by unfold display_info, display_info_frame, check_data; rewrite Hts, Hn|].
  cbn [negb].
  unfold display_info, display_info_frame, check_data. rewrite Hts, Hn.
  unfold title_after.
  unfold bind, ret, gets, lift, on_self, modify. cbn [self title].
  assert (getitem (PyDict g) "trainServices" = Ok ts) as ->
    by (unfold getitem; by rewrite Hts).
  assert (∀ d0, ten_labels d0 →
    let fr0 := mkFrame d0 2 0 in
    ∀ l, ten_labels (self (for_services l fr0).2)
       ∧ title (self (for_services l fr0).2) = title d0) as Hloop.
  { intros d0 Hten0 fr0 l. by apply for_services_keeps. }
  destruct (String.eqb (title d) "tk").
  - destruct (getitem (PyDict g) "locationName") as [n|x];
      [|by split; [exact Hten|]].
    cbn [self display_row row_listindex].
    destruct (getitem ts "service") as [sv|]; [|by split; [exact Hten|]].
    destruct (py_iter sv) as [l|]; [|by split; [exact Hten|]].
    specialize (Hloop (set_title ("Departures from " +:+ format_s n) d) Hten l).
    destruct (for_services l _) as [[[]|] fr1]; [|done].
    cbn [snd] in Hloop. destruct Hloop as [Hten1 Ht1].
    destruct (row_listindex fr1 <? service_numrows);
      [|by split; [exact Hten1|]].
    pose proof (blank_rows_keeps (service_numrows - row_listindex fr1)
                  (row_listindex fr1) fr1 Hten1) as [Hten2 Ht2].
    destruct (blank_rows _ _ fr1) as [[[]|] fr2];
      cbn [snd self title set_title set_statusbar set_Esc_to_exit disp] in *;
      (split; [exact Hten2|congruence]).
  - destruct (getitem ts "service") as [sv|]; [|by split; [exact Hten|]].
    destruct (py_iter sv) as [l|]; [|by split; [exact Hten|]].
    specialize (Hloop d Hten l).
    destruct (for_services l _) as [[[]|] fr1]; [|done].
    cbn [snd] in Hloop. destruct Hloop as [Hten1 Ht1].
    destruct (row_listindex fr1 <? service_numrows);
      [|by split; [exact Hten1|]].
    pose proof (blank_rows_keeps (service_numrows - row_listindex fr1)
                  (row_listindex fr1) fr1 Hten1) as [Hten2 Ht2].
    destruct (blank_rows _ _ fr1) as [[[]|] fr2];
      cbn [snd self title set_title set_statusbar set_Esc_to_exit disp] in *;
      (split; [exact Hten2|congruence]).
Qed.

Lemma title_after_set g t : t ≠ "tk" → title_after g t = t.
Proof.
  intros H. unfold title_after.
  destruct (String.eqb t "tk") eqn:E; [|done].
  by apply String.eqb_eq in E.
Qed.

Lemma refresh_keeps_set_title rs : ∀ d,
  ten_labels d → title d ≠ "tk" → title (foldl refresh d rs) = title d.
Proof.
  induction rs as [|r rs IH]; intros d Hten Ht; [done|].
  destruct (display_info_any r d Hten) as [Hten' Ht'].
  assert (title (refresh d r) = title d) as Heq.
  { rewrite Ht'. destruct r as [g|]; [|done].
    destruct (data_OK g); [|done]. by apply title_after_set. }
  simpl. rewrite IH; [done|done|congruence].
Qed.

(** C9: the window title is written once.  As long as it is the
    placeholder tk, a refresh without train services leaves it, and the
    first refresh with train services sets it from the station name; from
    then on no refresh, whatever it receives, changes it. *)
Theorem title_is_set_once d rs :
  ten_labels d →
  (title d ≠ "tk" → title (foldl refresh d rs) = title d)
  ∧ (title d = "tk" →
     ∀ r, match r with Some g => data_OK g = false | None => True end →
       title (refresh d r) = "tk")
  ∧ (title d = "tk" →
     ∀ g n, data_OK g = true → getitem (PyDict g) "locationName" = Ok n →
       title (refresh d (Some g)) = "Departures from " +:+ format_s n
       ∧ title (foldl refresh (refresh d (Some g)) rs) =
         "Departures from " +:+ format_s n).
Proof.
  intros Hten. split; [by apply refresh_keeps_set_title|]. split.
  - intros Ht r Hr. destruct (display_info_any r d Hten) as [_ ->].
    destruct r as [g|]; [|done]. by rewrite Hr.
  - intros Ht g n Hg Hn.
    destruct (display_info_any (Some g) d Hten) as [Hten' Ht'].
    rewrite Hg in Ht'. unfold title_after in Ht'. rewrite Ht, Hn in Ht'.
    simpl in Ht'. split; [done|].
    rewrite refresh_keeps_set_title; [done|done|].
    by rewrite Ht'.
Qed.

(** ** The timers and the stop flag *)

Lemma update_display_fields dm o a :
  ∃ r a', update_display dm o a = (r, a')
    ∧ Running a' = Running a
    ∧ requests a' = (if called o then S (requests a) else requests a)
    ∧ (dm = false → dialogs a' = dialogs a)
    ∧ match r with
      | Ok _ =>
          if Running a
          then after_queue a' = (after_queue a ++ [cb_update_display])%list
               ∧ destroyed a' = destroyed a
          else after_queue a' = after_queue a ∧ destroyed a' = true
      | Raise _ => after_queue a' = after_queue a ∧ destroyed a' = destroyed a
      end.
Proof.
  unfold update_display, getServiceInfo, GetDepartureBoard, send_request,
    with_display.
  unfold bind, on_display, set_Running, ret, gets, lift, after, destroy,
    showinfo, modify.
  destruct o as [[[g|]|ze]|ze]; [destruct dm|..];
    cbn [called display Running after_queue destroyed requests dialogs];
    repeat match goal with
    | |- context [getitem (PyDict g) "nrccMessages"] =>
        destruct (getitem (PyDict g) "nrccMessages") as [nrcc|]
    | |- context [negb (is_None ?x)] => destruct (negb (is_None x))
    | |- context [service_messages ?x] =>
        destruct (service_messages x) as [msg|]
    | |- context [display_info ?r ?d] =>
        destruct (display_info r d) as [[[]|] d']
    end;
    cbn [display Running after_queue destroyed requests dialogs];
    try (destruct (Running a) eqn:E);
    (eexists _, _; split; [reflexivity|]);
    cbn [display Running after_queue destroyed requests dialogs];
    rewrite ?E; by repeat split.
Qed.

Lemma update_display_not_called dm ze a :
  (update_display dm (Not_called ze) a).1 = Ok tt.
Proof.
  unfold update_display, getServiceInfo, GetDepartureBoard, with_display.
  unfold bind, on_display, ret, gets, lift, after, destroy, modify.
  cbn [display Running after_queue destroyed requests dialogs fst snd].
  unfold display_info, display_info_frame, check_data.
  unfold bind, on_self, ret, gets, modify.
  cbn [display Running after_queue destroyed requests dialogs fst snd self].
  by destruct (Running a).
Qed.

Lemma update_time_fields now a :
  ∃ a', update_time now a = (Ok tt, a')
    ∧ Running a' = Running a
    ∧ requests a' = requests a
    ∧ dialogs a' = dialogs a
    ∧ destroyed a' = destroyed a
    ∧ after_queue a' =
      if Running a then (after_queue a ++ [cb_update_time])%list
      else after_queue a.
Proof.
  unfold update_time, bind, on_display, ret, gets, after, modify.
  cbn [display Running after_queue destroyed requests dialogs].
  destruct (Running a) eqn:E; eexists; (split; [reflexivity|]);
    cbn [display Running after_queue destroyed requests dialogs];
    by rewrite ?E.
Qed.

Lemma fire_spec cb q q' :
  fire cb q = Some q' →
  q' `sublist_of` q
  ∧ (∀ cb', length (filter (λ x, x = cb') q) =
            length (filter (λ x, x = cb') q') + (if decide (cb = cb') then 1 else 0)).
Proof.
  revert q'. induction q as [|x q IH]; intros q' H; [done|].
  cbn [fire] in H. destruct (decide (x = cb)) as [->|Hx].
  - injection H as <-. split; [by apply sublist_cons|].
    intros cb'. rewrite filter_cons.
    destruct (decide (cb = cb')); simpl; lia.
  - destruct (fire cb q) as [q''|]; [|done]. simpl in H.
    injection H as <-. destruct (IH q'' eq_refl) as [Hs Hc].
    split; [by apply sublist_skip|].
    intros cb'. rewrite !filter_cons. specialize (Hc cb').
    destruct (decide (x = cb')); simpl; lia.
Qed.

Lemma fire_Some cb q : cb ∈ q → ∃ q', fire cb q = Some q'.
Proof.
  induction q as [|x q IH]; intros H; [by apply elem_of_nil in H|].
  cbn [fire]. destruct (decide (x = cb)); [by eexists|].
  apply elem_of_cons in H as [->|H]; [done|].
  destruct (IH H) as [q' ->]. by eexists.
Qed.

(** What a turn of the main loop does once the stop flag is down. *)
Lemma dispatch_stopped a e :
  Running a = false →
  Running (dispatch a e) = false
  ∧ after_queue (dispatch a e) `sublist_of` after_queue a
  ∧ requests (dispatch a e) + pending cb_update_display (dispatch a e)
    ≤ requests a + pending cb_update_display a.
Proof.
  intros Hr. unfold dispatch, pending.
  destruct (destroyed a); [done|].
  destruct e as [o|now|keycode|].
  - unfold run_timer.
    destruct (fire cb_update_display (after_queue a)) as [q|] eqn:Hq; [|done].
    destruct (fire_spec _ _ _ Hq) as [Hs Hc].
    destruct (update_display_fields false o (set_after_queue q a))
      as (r & a' & Hrun & Hr' & Hreq & _ & Hq').
    rewrite Hrun. cbn [snd]. simpl in Hr', Hreq, Hq'. rewrite Hr in Hq'.
    specialize (Hc cb_update_display). rewrite decide_True in Hc by done.
    assert (after_queue a' = q) as -> by (by destruct r; destruct Hq').
    split; [congruence|]. split; [done|]. destruct (called o); lia.
  - unfold run_timer.
    destruct (fire cb_update_time (after_queue a)) as [q|] eqn:Hq; [|done].
    destruct (fire_spec _ _ _ Hq) as [Hs Hc].
    destruct (update_time_fields now (set_after_queue q a))
      as (a' & Hrun & Hr' & Hreq & _ & _ & Hq').
    rewrite Hrun. cbn [snd]. simpl in Hr', Hreq, Hq'. rewrite Hr in Hq'.
    specialize (Hc cb_update_display). rewrite decide_False in Hc by done.
    rewrite Hq'. split; [congruence|]. split; [done|]. lia.
  - unfold handle_keyevent. destruct (keycode =? 9); by simpl.
  - by simpl.
Qed.

Lemma mainloop_stopped evs : ∀ a,
  Running a = false →
  Running (mainloop a evs) = false
  ∧ after_queue (mainloop a evs) `sublist_of` after_queue a
  ∧ requests (mainloop a evs) + pending cb_update_display (mainloop a evs)
    ≤ requests a + pending cb_update_display a.
Proof.
  induction evs as [|e evs IH]; intros a Hr; [done|].
  destruct (dispatch_stopped a e Hr) as (Hr1 & Hs1 & Hc1).
  destruct (IH (dispatch a e) Hr1) as (Hr2 & Hs2 & Hc2).
  change (mainloop a (e :: evs)) with (mainloop (dispatch a e) evs).
  split; [done|]. split; [by etrans|lia].
Qed.

(** No turn of the main loop adds a refresh timer to those that are set. *)
Lemma dispatch_pending a e :
  pending cb_update_display (dispatch a e) ≤
  Nat.max 1 (pending cb_update_display a).
Proof.
  unfold dispatch, pending.
  destruct (destroyed a); [lia|].
  destruct e as [o|now|keycode|].
  - unfold run_timer.
    destruct (fire cb_update_display (after_queue a)) as [q|] eqn:Hq; [|lia].
    destruct (fire_spec _ _ _ Hq) as [Hs Hc].
    destruct (update_display_fields false o (set_after_queue q a))
      as (r & a' & Hrun & _ & _ & _ & Hq').
    rewrite Hrun. cbn [snd]. simpl in Hq'.
    specialize (Hc cb_update_display). rewrite decide_True in Hc by done.
    destruct r as [[]|]; [destruct (Running a)|];
      destruct Hq' as [-> _]; rewrite ?filter_app, ?length_app; simpl; lia.
  - unfold run_timer.
    destruct (fire cb_update_time (after_queue a)) as [q|] eqn:Hq; [|lia].
    destruct (fire_spec _ _ _ Hq) as [Hs Hc].
    destruct (update_time_fields now (set_after_queue q a))
      as (a' & Hrun & _ & _ & _ & _ & Hq').
    rewrite Hrun. cbn [snd]. simpl in Hq'.
    specialize (Hc cb_update_display). rewrite decide_False in Hc by done.
    rewrite Hq'. destruct (Running a);
      rewrite ?filter_app, ?length_app; simpl; lia.
  - unfold handle_keyevent. destruct (keycode =? 9); simpl; lia.
  - simpl. lia.
Qed.

Lemma mainloop_pending evs : ∀ a,
  pending cb_update_display a ≤ 1 →
  pending cb_update_display (mainloop a evs) ≤ 1.
Proof.
  induction evs as [|e evs IH]; intros a H; [done|].
  change (mainloop a (e :: evs)) with (mainloop (dispatch a e) evs).
  apply IH. pose proof (dispatch_pending a e). lia.
Qed.

Lemma main_pending o now evs a :
  main o now evs = (Ok tt, a) → pending cb_update_display a ≤ 1.
Proof.
  unfold main, bind.
  destruct (update_display_fields true o App_init)
    as (r & a1 & Hrun & Hr1 & _ & _ & Hq1).
  rewrite Hrun. destruct r as [[]|]; [|done].
  destruct (update_time_fields now a1) as (a2 & Hrun2 & _ & _ & _ & _ & Hq2).
  rewrite Hrun2. intros [= <-]. apply mainloop_pending.
  unfold pending. rewrite Hq2. simpl in Hq1. destruct Hq1 as [-> _].
  by destruct (Running a1).
Qed.

Lemma mainloop_destroyed evs : ∀ a,
  destroyed a = true → mainloop a evs = a.
Proof.
  induction evs as [|e evs IH]; intros a H; [done|].
  change (mainloop a (e :: evs)) with (mainloop (dispatch a e) evs).
  assert (dispatch a e = a) as -> by (unfold dispatch; by rewrite H).
  by apply IH.
Qed.

(** C7, as the code has it: once the stop flag is down no callback sets a
    timer again, and the refresh timer that is still set fires once more:
    that call makes one more request to the service before it looks at the
    flag, and destroys the window if it returns normally, after which the
    main loop does nothing.  No request follows that one.  [o'] is what the
    call of the service does on that tick. *)
Theorem stop_flag_lets_one_refresh_run o now evs a evs' :
  main o now evs = (Ok tt, a) → Running a = false →
  Running (mainloop a evs') = false
  ∧ after_queue (mainloop a evs') `sublist_of` after_queue a
  ∧ requests (mainloop a evs') ≤ S (requests a)
  ∧ (destroyed a = false → cb_update_display ∈ after_queue a →
     ∀ o' : Outcome, ∃ q, fire cb_update_display (after_queue a) = Some q
       ∧ requests (dispatch a (timer_update_display o')) = S (requests a)
       ∧ ((update_display false o' (set_after_queue q a)).1 = Ok tt →
          destroyed (dispatch a (timer_update_display o')) = true
          ∧ ∀ evs'', mainloop (dispatch a (timer_update_display o')) evs'' =
                     dispatch a (timer_update_display o'))).
Proof.
  intros Hmain Hr.
  destruct (mainloop_stopped evs' a Hr) as (Hr' & Hs & Hc).
  pose proof (main_pending o now evs a Hmain) as Hp.
  split; [done|]. split; [done|]. split; [lia|].
  intros Hd Hin o'. destruct (fire_Some _ _ Hin) as [q Hq].
  exists q. split; [done|].
  unfold dispatch, run_timer. rewrite Hd, Hq.
  destruct (update_display_fields false o' (set_after_queue q a))
    as (r & a' & Hrun & _ & Hreq & _ & Hq').
  rewrite Hrun. cbn [fst snd]. split; [done|].
  intros ->. simpl in Hq'. rewrite Hr in Hq'. destruct Hq' as [_ Hd'].
  split; [done|]. intros evs''. by apply mainloop_destroyed.
Qed.

(** ** The dialog with the service messages *)

Lemma update_display_dialogs dm o a :
  dialogs (update_display dm o a).2 =
  (dialogs a ++ if dm then first_dialog o else [])%list.
Proof.
  unfold update_display, getServiceInfo, GetDepartureBoard, send_request,
    with_display, first_dialog.
  unfold bind, on_display, set_Running, ret, gets, lift, after, destroy,
    showinfo, modify.
  destruct o as [[[g|]|ze]|ze]; [destruct dm|..];
    repeat first
    [ progress cbn [negb display Running after_queue destroyed requests
                    dialogs snd]
    | match goal with
      | |- context [getitem (PyDict g) "nrccMessages"] =>
          destruct (getitem (PyDict g) "nrccMessages") as [nrcc|]
      | |- context [is_None ?x] => destruct (is_None x)
      | |- context [service_messages ?x] =>
          destruct (service_messages x) as [msg|]
      | |- context [display_info ?r ?d] =>
          destruct (display_info r d) as [[[]|] d']
      | |- context [Running a] => destruct (Running a)
      end ];
    try destruct dm; by rewrite ?app_nil_r.
Qed.

Lemma dispatch_dialogs a e : dialogs (dispatch a e) = dialogs a.
Proof.
  unfold dispatch. destruct (destroyed a); [done|].
  destruct e as [o|now|keycode|].
  - unfold run_timer. destruct (fire _ _) as [q|]; [|done].
    by rewrite update_display_dialogs, app_nil_r.
  - unfold run_timer. destruct (fire _ _) as [q|]; [|done].
    destruct (update_time_fields now (set_after_queue q a))
      as (a' & -> & _ & _ & Hd & _). cbn [snd]. by rewrite Hd.
  - unfold handle_keyevent. by destruct (keycode =? 9).
  - done.
Qed.

Lemma mainloop_dialogs evs : ∀ a, dialogs (mainloop a evs) = dialogs a.
Proof.
  induction evs as [|e evs IH]; intros a; [done|].
  change (mainloop a (e :: evs)) with (mainloop (dispatch a e) evs).
  by rewrite IH, dispatch_dialogs.
Qed.

(** C8: the dialog with the service messages belongs to the first call of
    [update_display] alone.  Over a whole run of the program the dialogs
    shown are those of that first call, which is one dialog when the first
    response is there and carries messages and none otherwise, and no turn
    of the main loop shows a dialog, whatever the response it gets. *)
Theorem service_messages_shown_at_start_only o now evs :
  dialogs (main o now evs).2 = first_dialog o
  ∧ (∀ a e, dialogs (dispatch a e) = dialogs a)
  ∧ (∀ a o', dialogs (update_display false o' a).2 = dialogs a)
  ∧ (first_dialog o ≠ [] →
     ∃ g nrcc, o = Returns (Some g)
       ∧ getitem (PyDict g) "nrccMessages" = Ok nrcc
       ∧ is_None nrcc = false).
Proof.
  split.
  - unfold main, bind.
    pose proof (update_display_dialogs true o App_init) as H1.
    destruct (update_display true o App_init) as [[[]|] a1];
      cbn [snd App_init dialogs app] in H1; [|exact H1].
    destruct (update_time_fields now a1) as (a2 & -> & _ & _ & Hd & _).
    cbn [snd]. by rewrite mainloop_dialogs, Hd, H1.
  - split; [apply dispatch_dialogs|]. split.
    + intros a o'. by rewrite update_display_dialogs, app_nil_r.
    + unfold first_dialog. destruct o as [[[g|]|]|]; try done.
      destruct (getitem (PyDict g) "nrccMessages") as [nrcc|] eqn:Hn; [|done].
      destruct (is_None nrcc) eqn:E; [done|].
      intros _. by exists g, nrcc.
Qed.

(** ** A request that fails *)

(** C5: what a refresh does when the request raises.  The service call
    returns [None] and writes the text of the exception to the status bar,
    the refresh returns normally and sets its timer again while the program
    is running; but [display_info], called with [None] in the same
    callback, replaces the text at once: when the refresh is over the status
    bar reads "No data received" and the text of the exception is gone. *)
Theorem failed_request_text_is_replaced dm ze a :
  (getServiceInfo (Fails ze) a).1 = Ok None
  ∧ text (statusbar (display (getServiceInfo (Fails ze) a).2)) =
    PyStr ("Web service error: " +:+ ze)
  ∧ (update_display dm (Fails ze) a).1 = Ok tt
  ∧ text (statusbar (display (update_display dm (Fails ze) a).2)) =
    PyStr "No data received"
  ∧ (∀ c, disp (display (update_display dm (Fails ze) a).2) c =
          disp (display a) c)
  ∧ requests (update_display dm (Fails ze) a).2 = S (requests a)
  ∧ after_queue (update_display dm (Fails ze) a).2 =
    if Running a then (after_queue a ++ [cb_update_display])%list
    else after_queue a.
Proof.
  unfold update_display, getServiceInfo, GetDepartureBoard, send_request,
    with_display.
  unfold bind, on_display, ret, gets, lift, after, destroy, modify.
  cbn [display Running after_queue destroyed requests dialogs fst snd].
  unfold display_info, display_info_frame, check_data.
  unfold bind, on_self, ret, gets, modify.
  cbn [display Running after_queue destroyed requests dialogs fst snd self].
  by destruct (Running a).
Qed.

(** ** The program between its events *)

Lemma fire_None cb q : cb ∉ q → fire cb q = None.
Proof.
  induction q as [|x q IH]; intros H; [done|].
  apply not_elem_of_cons in H as [Hx Hq]. cbn [fire].
  rewrite decide_False by done. by rewrite IH.
Qed.

(** The display after [update_display]: the status bar gets the text of
    the service call, and the display goes through [display_info] unless
    the messages of the first call raise before. *)
Lemma update_display_display dm o a :
  let d0 := statusbar_text (service_status o) (display a) in
  let GSBR := service_response o in
  display (update_display dm o a).2 = refresh d0 GSBR
  ∨ ((update_display dm o a).1 ≠ Ok tt ∧ dm = true
     ∧ display (update_display dm o a).2 = d0).
Proof.
  unfold update_display, getServiceInfo, GetDepartureBoard, send_request,
    with_display, refresh.
  unfold bind, on_display, set_Running, ret, gets, lift, after, destroy,
    showinfo, modify.
  destruct o as [[[g|]|ze]|ze]; [destruct dm|..];
    repeat first
    [ progress cbn [negb service_status service_response display Running after_queue destroyed requests
                    dialogs fst snd]
    | match goal with
      | |- context [getitem (PyDict g) "nrccMessages"] =>
          destruct (getitem (PyDict g) "nrccMessages") as [nrcc|]
      | |- context [is_None ?x] => destruct (is_None x)
      | |- context [service_messages ?x] =>
          destruct (service_messages x) as [msg|]
      | |- context [display_info ?r ?d] =>
          destruct (display_info r d) as [[[]|] d']
      | |- context [Running a] => destruct (Running a)
      end ];
    first [ by left | by right ].
Qed.

Lemma ten_labels_statusbar_text msg d :
  ten_labels d → ten_labels (statusbar_text msg d).
Proof. done. Qed.

Lemma update_display_ten_labels dm o a :
  ten_labels (display a) → ten_labels (display (update_display dm o a).2).
Proof.
  intros Hten.
  destruct (update_display_display dm o a) as [->|(_ & _ & ->)].
  - apply display_info_any. by apply ten_labels_statusbar_text.
  - by apply ten_labels_statusbar_text.
Qed.

Lemma update_time_ten_labels now a :
  ten_labels (display a) → ten_labels (display (update_time now a).2).
Proof.
  intros Hten. unfold update_time, bind, on_display, ret, gets, after, modify.
  cbn [display Running after_queue destroyed requests dialogs].
  by destruct (Running a).
Qed.

Lemma dispatch_ten_labels a e :
  ten_labels (display a) → ten_labels (display (dispatch a e)).
Proof.
  intros Hten. unfold dispatch. destruct (destroyed a); [done|].
  destruct e as [o|now|keycode|].
  - unfold run_timer. destruct (fire _ _) as [q|]; [|done].
    by apply update_display_ten_labels.
  - unfold run_timer. destruct (fire _ _) as [q|]; [|done].
    by apply update_time_ten_labels.
  - unfold handle_keyevent. by destruct (keycode =? 9).
  - done.
Qed.

Lemma mainloop_ten_labels evs : ∀ a,
  ten_labels (display a) → ten_labels (display (mainloop a evs)).
Proof.
  induction evs as [|e evs IH]; intros a H; [done|].
  change (mainloop a (e :: evs)) with (mainloop (dispatch a e) evs).
  by apply IH, dispatch_ten_labels.
Qed.

(** X1: the lists of labels keep their length.  In every state that a run
    of the program reaches, whatever the service answered and whether
    a call raised or not, each of the seven lists still holds the ten
    labels that [__init__] made. *)
Theorem every_list_keeps_ten_labels o now evs :
  ten_labels (display (main o now evs).2).
Proof.
  unfold main, bind.
  pose proof (update_display_ten_labels true o App_init ten_labels_init) as H1.
  destruct (update_display true o App_init) as [[[]|] a1]; [|done].
  pose proof (update_time_ten_labels now a1 H1) as H2.
  destruct (update_time now a1) as [[[]|] a2]; [|done].
  by apply mainloop_ten_labels.
Qed.

Lemma dispatch_pending_time a e :
  pending cb_update_time (dispatch a e) ≤ Nat.max 1 (pending cb_update_time a).
Proof.
  unfold dispatch, pending.
  destruct (destroyed a); [lia|].
  destruct e as [o|now|keycode|].
  - unfold run_timer.
    destruct (fire cb_update_display (after_queue a)) as [q|] eqn:Hq; [|lia].
    destruct (fire_spec _ _ _ Hq) as [Hs Hc].
    destruct (update_display_fields false o (set_after_queue q a))
      as (r & a' & Hrun & _ & _ & _ & Hq').
    rewrite Hrun. cbn [snd]. simpl in Hq'.
    specialize (Hc cb_update_time). rewrite decide_False in Hc by done.
    destruct r as [[]|]; [destruct (Running a)|];
      destruct Hq' as [-> _]; rewrite ?filter_app, ?length_app; simpl; lia.
  - unfold run_timer.
    destruct (fire cb_update_time (after_queue a)) as [q|] eqn:Hq; [|lia].
    destruct (fire_spec _ _ _ Hq) as [Hs Hc].
    destruct (update_time_fields now (set_after_queue q a))
      as (a' & Hrun & _ & _ & _ & _ & Hq').
    rewrite Hrun. cbn [snd]. simpl in Hq'.
    specialize (Hc cb_update_time). rewrite decide_True in Hc by done.
    rewrite Hq'. destruct (Running a);
      rewrite ?filter_app, ?length_app; simpl; lia.
  - unfold handle_keyevent. destruct (keycode =? 9); simpl; lia.
  - simpl. lia.
Qed.

Lemma mainloop_pending_both evs : ∀ a,
  pending cb_update_display a ≤ 1 ∧ pending cb_update_time a ≤ 1 →
  pending cb_update_display (mainloop a evs) ≤ 1
  ∧ pending cb_update_time (mainloop a evs) ≤ 1.
Proof.
  induction evs as [|e evs IH]; intros a H; [done|].
  change (mainloop a (e :: evs)) with (mainloop (dispatch a e) evs).
  apply IH. pose proof (dispatch_pending a e).
  pose proof (dispatch_pending_time a e). lia.
Qed.

(** X2: timers do not pile up.  In every state that a run of the program
    reaches at most one refresh timer and at most one clock timer are set:
    a callback sets its timer again once at most, and only after its own
    timer has fired. *)
Theorem timers_never_pile_up o now evs :
  pending cb_update_display (main o now evs).2 ≤ 1
  ∧ pending cb_update_time (main o now evs).2 ≤ 1.
Proof.
  unfold main, bind.
  destruct (update_display_fields true o App_init)
    as (r & a1 & Hrun & Hr1 & _ & _ & Hq1).
  rewrite Hrun. destruct r as [[]|].
  - destruct (update_time_fields now a1) as (a2 & Hrun2 & _ & _ & _ & _ & Hq2).
    rewrite Hrun2. apply mainloop_pending_both.
    unfold pending. rewrite Hq2. simpl in Hq1. destruct Hq1 as [-> _].
    by destruct (Running a1).
  - cbn [snd]. unfold pending. destruct Hq1 as [-> _]. simpl. lia.
Qed.

(** X3: the service is called by refresh ticks alone.  One turn of the
    main loop makes one call of the service when it is a refresh tick whose
    timer is set, the window is still there, and the operation and the
    arguments of the call can be evaluated; it makes none in any other
    case: clock ticks, keys and the closing of the window never reach the
    service, and neither does a refresh tick that fails before the call. *)
Theorem requests_come_from_refresh_ticks a e :
  requests (dispatch a e) =
  match e with
  | timer_update_display t =>
      if destroyed a then requests a
      else if decide (cb_update_display ∈ after_queue a)
           then (if called t then S (requests a) else requests a)
           else requests a
  | _ => requests a
  end.
Proof.
  unfold dispatch. destruct (destroyed a); [by destruct e|].
  destruct e as [o|now|keycode|].
  - unfold run_timer. case_decide as Hin.
    + destruct (fire_Some _ _ Hin) as [q ->].
      destruct (update_display_fields false o (set_after_queue q a))
        as (r & a' & -> & _ & Hreq & _). cbn [snd]. by rewrite Hreq.
    + by rewrite fire_None.
  - unfold run_timer. destruct (fire _ _) as [q|]; [|done].
    destruct (update_time_fields now (set_after_queue q a))
      as (a' & -> & _ & Hreq & _). cbn [snd]. by rewrite Hreq.
  - unfold handle_keyevent. by destruct (keycode =? 9).
  - done.
Qed.

Lemma dispatch_keeps_running a e :
  Running a = true → destroyed a = false → is_stop e = false →
  Running (dispatch a e) = true ∧ destroyed (dispatch a e) = false.
Proof.
  intros Hr Hd He. unfold dispatch. rewrite Hd.
  destruct e as [o|now|keycode|].
  - unfold run_timer. destruct (fire _ _) as [q|]; [|done].
    destruct (update_display_fields false o (set_after_queue q a))
      as (r & a' & -> & Hr' & _ & _ & Hq').
    simpl in Hr', Hq'. rewrite Hr in Hq'. cbn [snd].
    split; [congruence|]. destruct r as [[]|]; destruct Hq'; congruence.
  - unfold run_timer. destruct (fire _ _) as [q|]; [|done].
    destruct (update_time_fields now (set_after_queue q a))
      as (a' & -> & Hr' & _ & _ & Hd' & _).
    simpl in Hr', Hd'. cbn [snd]. split; congruence.
  - unfold handle_keyevent. simpl in He. by rewrite He.
  - done.
Qed.

(** X4: nothing but the Esc key or the closing of the window stops the
    program.  Over events among which there is no Esc key and no closing of
    the window a running program stays running, and its window is not
    destroyed, whatever the service answers and whichever callbacks raise. *)
Theorem only_a_stop_event_ends_the_run evs : ∀ a,
  Running a = true → destroyed a = false →
  Forall (λ e, is_stop e = false) evs →
  Running (mainloop a evs) = true ∧ destroyed (mainloop a evs) = false.
Proof.
  induction evs as [|e evs IH]; intros a Hr Hd Hall; [done|].
  apply Forall_cons in Hall as [He Hall].
  change (mainloop a (e :: evs)) with (mainloop (dispatch a e) evs).
  destruct (dispatch_keeps_running a e Hr Hd He) as [Hr' Hd'].
  by apply IH.
Qed.

Lemma dispatch_without_refresh_timer a e :
  pending cb_update_display a = 0 →
  pending cb_update_display (dispatch a e) = 0
  ∧ requests (dispatch a e) = requests a
  ∧ destroyed (dispatch a e) = destroyed a.
Proof.
  intros Hp. unfold dispatch. destruct (destroyed a) eqn:Hd; [done|].
  destruct e as [o|now|keycode|].
  - unfold run_timer.
    destruct (fire cb_update_display (after_queue a)) as [q|] eqn:Hq;
      [|by rewrite Hd].
    destruct (fire_spec _ _ _ Hq) as [_ Hc].
    specialize (Hc cb_update_display). rewrite decide_True in Hc by done.
    unfold pending in Hp. lia.
  - unfold run_timer.
    destruct (fire cb_update_time (after_queue a)) as [q|] eqn:Hq;
      [|by rewrite Hd].
    destruct (fire_spec _ _ _ Hq) as [_ Hc].
    specialize (Hc cb_update_display). rewrite decide_False in Hc by done.
    destruct (update_time_fields now (set_after_queue q a))
      as (a' & -> & _ & Hreq & _ & Hd' & Hq').
    simpl in Hreq, Hd', Hq'. cbn [snd]. unfold pending in *.
    split; [|split; congruence].
    rewrite Hq'. destruct (Running a);
      rewrite ?filter_app, ?length_app; simpl; lia.
  - unfold handle_keyevent. destruct (keycode =? 9); by rewrite ?Hd.
  - by rewrite ?Hd.
Qed.

Lemma mainloop_without_refresh_timer evs : ∀ a,
  pending cb_update_display a = 0 →
  requests (mainloop a evs) = requests a
  ∧ destroyed (mainloop a evs) = destroyed a.
Proof.
  induction evs as [|e evs IH]; intros a Hp; [done|].
  change (mainloop a (e :: evs)) with (mainloop (dispatch a e) evs).
  destruct (dispatch_without_refresh_timer a e Hp) as (Hp' & Hr & Hd).
  destruct (IH _ Hp') as [? ?]. split; congruence.
Qed.

(** X5: a refresh that raises ends the refreshes for good.  When the
    callback of the refresh timer raises, it has not set its timer again:
    from then on no event makes a request to the service, and the window is
    never destroyed, not even after the Esc key or the closing of the
    window, which only lower the flag that no refresh is left to read. *)
Theorem refresh_that_raises_is_the_last o now evs a o' q x evs' :
  main o now evs = (Ok tt, a) → destroyed a = false →
  fire cb_update_display (after_queue a) = Some q →
  (update_display false o' (set_after_queue q a)).1 = Raise x →
  let a' := mainloop (dispatch a (timer_update_display o')) evs' in
  requests a' = S (requests a) ∧ destroyed a' = false.
Proof.
  intros Hmain Hd Hq Hx a'.
  pose proof (main_pending o now evs a Hmain) as Hp.
  destruct (fire_spec _ _ _ Hq) as [_ Hc].
  specialize (Hc cb_update_display). rewrite decide_True in Hc by done.
  assert (pending cb_update_display (dispatch a (timer_update_display o')) = 0
          ∧ requests (dispatch a (timer_update_display o')) = S (requests a)
          ∧ destroyed (dispatch a (timer_update_display o')) = false)
    as (Hp1 & Hr1 & Hd1).
  { unfold dispatch, run_timer. rewrite Hd, Hq.
    destruct (update_display_fields false o' (set_after_queue q a))
      as (r & a1 & Hrun & _ & Hreq & _ & Hq').
    assert (called o' = true) as Hcalled.
    { destruct o' as [o1|ze]; [done|].
      by rewrite update_display_not_called in Hx. }
    rewrite Hcalled in Hreq.
    rewrite Hrun in Hx |- *. cbn [fst snd] in *. subst r.
    simpl in Hreq, Hq'. destruct Hq' as [Hq1 Hd1].
    unfold pending in *. rewrite Hq1. split; [lia|]. split; congruence. }
  destruct (mainloop_without_refresh_timer evs' _ Hp1) as [Hr2 Hd2].
  unfold a'. split; congruence.
Qed.

(** ** Lookups outside the guarded body *)

(** X6: the station name is read outside the [try] block.  While the
    title is still tk, a response that has train services and lacks
    [locationName] makes [display_info] raise the [KeyError] of that
    lookup, and the display is left exactly as it was: no label is written
    and the status bar is not placed. *)
Theorem missing_station_name_raises_before_drawing g d x :
  title d = "tk" → data_OK g = true →
  getitem (PyDict g) "locationName" = Raise x →
  display_info (Some g) d = (Raise x, d).
Proof.
  intros Ht Hg Hx. unfold data_OK in Hg.
  unfold display_info, display_info_frame, check_data.
  destruct (dict_get g "trainServices") as [ts|]; [|done].
  destruct (is_None ts); [done|].
  unfold bind, ret, gets, lift, on_self, modify. cbn [self title].
  by rewrite Ht, Hx.
Qed.

(** X7: so is the list of services.  When [trainServices] is there and
    the lookup of its [service], or the start of the loop over it, raises,
    [display_info] raises that exception after it has set the title: no
    label is touched and the status bar is neither given a text nor
    placed. *)
Theorem unreadable_service_list_raises_before_drawing g ts d x :
  dict_get g "trainServices" = Some ts → is_None ts = false →
  title_ready g d →
  (getitem ts "service" ≫= py_iter) = Raise x →
  display_info (Some g) d =
  (Raise x, set_title (title_after g (title d)) d).
Proof.
  intros Hts Hn Ht Hx.
  unfold display_info, display_info_frame, check_data.
  rewrite Hts, Hn. unfold title_after, title_ready in *.
  unfold bind, ret, gets, lift, on_self, modify. cbn [self title].
  assert (getitem (PyDict g) "trainServices" = Ok ts) as ->
    by (unfold getitem; by rewrite Hts).
  destruct (String.eqb (title d) "tk") eqn:Htk.
  - apply String.eqb_eq in Htk. specialize (Ht Htk).
    destruct (getitem (PyDict g) "locationName") as [n|]; [|done].
    cbn [self display_row row_listindex].
    destruct (getitem ts "service") as [sv|]; simpl in Hx.
    + by rewrite Hx.
    + by injection Hx as ->.
  - rewrite set_title_same.
    destruct (getitem ts "service") as [sv|]; simpl in Hx.
    + by rewrite Hx.
    + by injection Hx as ->.
Qed.

(** ** Values that are [None] *)

(** X8: a platform that is [None] blanks the platform label, but a number
    of cars that is [None] leaves the cars label with the text it had: in
    the slot of a service that has all its fields the platform label reads
    the empty string, and the cars label reads the new value only when
    there is one. *)
Theorem absent_platform_is_blank_absent_length_is_stale g es d i e :
  ten_labels d → has_services g es → title_ready g d →
  Forall tolerated es → length es ≤ 10 →
  es !! i = Some e → complete e →
  let d' := refresh d (Some g) in
  (getitem e "platform" = Ok PyNone →
     text <$> disp d' plat_disp !! i = Some (PyStr ""))
  ∧ (getitem e "length" = Ok PyNone →
     text <$> disp d' cars_disp !! i = text <$> disp d cars_disp !! i)
  ∧ (∀ v, getitem e "length" = Ok v → is_None v = false →
     text <$> disp d' cars_disp !! i = Some v).
Proof.
  intros Hten Hg Ht Hall Hlen Hi He d'.
  pose proof (lookup_lt_Some _ _ _ Hi) as Hlt.
  assert (∀ c, primary c → ∃ l v, disp d c !! i = Some l
            ∧ column_text c e = Ok v
            ∧ disp d' c !! i =
              Some (written (2 + rows_before es i) (grid_column c) v l))
    as Hlab.
  { intros c Hc.
    assert (i < length (disp d c)) as Hic by (rewrite Hten; lia).
    destruct (lookup_lt_is_Some_2 _ _ Hic) as [l Hl].
    destruct (complete_label_after e (2 + rows_before es i) c l He Hc)
      as (v & Hv & Hla).
    exists l, v. split; [done|]. split; [done|].
    unfold d', refresh. rewrite (display_info_rendered g es) by done.
    unfold slot_after. rewrite decide_True by lia.
    rewrite Nat.sub_0_r, Hi, Hl. by rewrite <- Hla. }
  split; [|split].
  - intros Hp. destruct (Hlab plat_disp) as (l & v & Hl & Hv & ->);
      [unfold primary; simpl; lia|].
    unfold column_text, platform_text in Hv. rewrite Hp in Hv.
    simpl in Hv. by injection Hv as <-.
  - intros Hc. destruct (Hlab cars_disp) as (l & v & Hl & Hv & ->);
      [unfold primary; simpl; lia|].
    unfold column_text in Hv. rewrite Hc in Hv. injection Hv as <-.
    by rewrite Hl.
  - intros v0 Hc Hn. destruct (Hlab cars_disp) as (l & v & Hl & Hv & ->);
      [unfold primary; simpl; lia|].
    unfold column_text in Hv. rewrite Hc in Hv. injection Hv as <-.
    by destruct v0.
Qed.

(** ** A refresh that succeeds *)

(** X9: when the service answers with services that have all their
    fields, ten at most, the refresh of a timer tick returns normally and
    the status bar reads OK at its end: [display_info] leaves the text that
    [getServiceInfo] wrote. *)
Theorem refresh_of_complete_services_reads_OK g es a :
  ten_labels (display a) → service_numrows ≤ 10 →
  has_services g es → title_ready g (display a) →
  Forall complete es → length es ≤ 10 →
  (update_display false (Returns (Some g)) a).1 = Ok tt
  ∧ text (statusbar (display (update_display false (Returns (Some g)) a).2))
    = PyStr "OK".
Proof.
  intros Hten Hrows Hg Ht Hall Hlen.
  destruct (display_info_tolerated g es (statusbar_text "OK" (display a)))
    as (d' & Hrun & _ & _ & Hs & _); [done|done|done| |done|done|].
  { eapply Forall_impl; [done|]. apply complete_tolerated. }
  rewrite foldl_status_after_complete in Hs by done.
  unfold update_display, getServiceInfo, GetDepartureBoard, send_request,
    with_display.
  unfold bind, on_display, ret, gets, lift, after, destroy, modify.
  cbn [display Running after_queue destroyed requests dialogs fst snd].
  rewrite Hrun.
  cbn [display Running after_queue destroyed requests dialogs fst snd].
  destruct (Running a);
    cbn [display Running after_queue destroyed requests dialogs fst snd];
    by rewrite Hs.
Qed.

(** ** The rows on the grid *)

Lemma rows_before_apart es : ∀ i k e,
  es !! i = Some e → i < k →
  rows_before es i + rows_used e ≤ rows_before es k.
Proof.
  induction es as [|x es IH]; intros i k e Hi Hk; [done|].
  destruct k as [|k]; [lia|]. rewrite rows_before_cons.
  destruct i as [|i].
  - injection Hi as ->. unfold rows_before at 1. simpl.
    unfold rows_used. lia.
  - rewrite rows_before_cons. simpl in Hi.
    specialize (IH i k e Hi). lia.
Qed.

Lemma rows_before_le es i k : i ≤ k → rows_before es i ≤ rows_before es k.
Proof.
  intros H. destruct (decide (i = k)) as [->|Hne]; [done|].
  destruct (es !! i) as [e|] eqn:Hi.
  - pose proof (rows_before_apart es i k e Hi). lia.
  - unfold rows_before. apply lookup_ge_None_1 in Hi.
    by rewrite !take_ge by lia.
Qed.

Lemma grid_of_label_after e r c l r' col :
  complete e →
  grid_info (label_after e r c l) = Some (r', col) →
  r ≤ r' ≤ r + sub_rows e.
Proof.
  unfold complete, body_result, stages. intros Hb.
  destruct (getitem e "std") as [v1|] eqn:H1; [|done].
  destruct (destination_name e) as [v2|] eqn:H2; [|done].
  destruct (platform_text e) as [v3|] eqn:H3; [|done].
  destruct (getitem e "etd") as [v4|] eqn:H4; [|done].
  destruct (getitem e "length") as [v5|] eqn:H5; [|done].
  destruct (cancel_wanted e) as [w6|] eqn:H6; [|done].
  destruct (delay_wanted e) as [w7|] eqn:H7; [|done].
  assert (w6 = true → ∃ v, getitem e "cancelReason" = Ok v) as Hc.
  { intros ->. destruct (cancel_wanted_true _ H6) as (v & Hv & _). eauto. }
  assert (w7 = true → ∃ v, getitem e "delayReason" = Ok v) as Hd.
  { intros ->. destruct (delay_wanted_true _ H7) as (_ & v & Hv & _). eauto. }
  destruct c, w6, w7;
    try (destruct (Hc eq_refl) as [vc Hvc]);
    try (destruct (Hd eq_refl) as [vd Hvd]);
    unfold_after; use_lookups; simpl; intros [= <- <-]; lia.
Qed.

(** X10: the rows of the services do not run into one another.  After a
    refresh of services that have all their fields, on a display whose
    shown slots were a prefix, every label on the grid belongs to a service
    of the response and lies from row 2 on and above the status bar, which
    stands with the Esc hint on the row after the last service; and every
    label of a later service lies below every label of an earlier one. *)
Theorem service_rows_are_apart_and_above_the_status_bar g es d m :
  service_numrows ≤ 10 → ten_labels d →
  prefix_shown d m → m ≤ service_numrows →
  has_services g es → title_ready g d →
  Forall complete es → length es ≤ service_numrows →
  let d' := refresh d (Some g) in
  let R := 2 + rows_before es (length es) in
  grid_info (statusbar d') = Some (R, 0)
  ∧ grid_info (Esc_to_exit d') = Some (R, 4)
  ∧ (∀ c j l r col, disp d' c !! j = Some l →
       grid_info l = Some (r, col) → j < length es ∧ 2 ≤ r < R)
  ∧ (∀ c c' i j l l' r r' col col', i < j →
       disp d' c !! i = Some l → disp d' c' !! j = Some l' →
       grid_info l = Some (r, col) → grid_info l' = Some (r', col') →
       r < r').
Proof.
  intros Hrows Hten Hp Hm Hg Ht Hall Hlen d' R.
  assert (Forall tolerated es) as Htol
    by (eapply Forall_impl; [done|]; apply complete_tolerated).
  pose proof (display_info_hides_rest g es d m Hrows Hten Hp Hm Hg Ht
                Htol Hlen) as Hhid.
  fold d' in Hhid.
  destruct (display_info_tolerated g es d) as
    (d1 & Hrun & _ & _ & Hs & Hx & _ & Hl); [done|done|done|done|lia|done|].
  assert (d' = d1) as Hd' by (unfold d', refresh; by rewrite Hrun).
  assert (∀ c j l r col, disp d' c !! j = Some l →
            grid_info l = Some (r, col) →
            ∃ e, es !! j = Some e
              ∧ 2 + rows_before es j ≤ r
              ∧ r ≤ 2 + rows_before es j + sub_rows e) as Hrow.
  { intros c j l r col Hjl Hgr.
    destruct (decide (j < length es)) as [Hj|Hj].
    - destruct (lookup_lt_is_Some_2 es j Hj) as [e He].
      exists e. split; [done|].
      rewrite Hd', Hl, decide_False in Hjl by lia.
      unfold slot_after in Hjl. rewrite decide_True in Hjl by lia.
      rewrite Nat.sub_0_r, He in Hjl.
      destruct (disp d c !! j) as [l0|]; [|done].
      injection Hjl as <-.
      rewrite Forall_lookup in Hall. specialize (Hall j e He).
      pose proof (grid_of_label_after e _ c l0 r col Hall Hgr). lia.
    - assert (j < 10) as Hj'.
      { rewrite Hd' in Hjl. apply lookup_lt_Some in Hjl.
        destruct (display_info_any (Some g) d Hten) as [Hten' _].
        unfold refresh in Hten'. rewrite Hrun in Hten'. cbn [snd] in Hten'.
        by rewrite (Hten' c) in Hjl. }
      specialize (Hhid c j). rewrite showing_lookup, Hjl in Hhid.
      unfold shown in Hhid. rewrite Hgr in Hhid.
      by specialize (Hhid ltac:(lia)). }
  split; [by rewrite Hd', Hs|]. split; [by rewrite Hd', Hx|]. split.
  - intros c j l r col Hjl Hgr.
    destruct (Hrow c j l r col Hjl Hgr) as (e & He & Hlo & Hhi).
    pose proof (lookup_lt_Some _ _ _ He) as Hj.
    pose proof (rows_before_apart es j (length es) e He Hj) as Hap.
    unfold rows_used in Hap. unfold R. lia.
  - intros c c' i j l l' r r' col col' Hij Hil Hjl Hgr Hgr'.
    destruct (Hrow c i l r col Hil Hgr) as (e & He & _ & Hhi).
    destruct (Hrow c' j l' r' col' Hjl Hgr') as (e' & He' & Hlo & _).
    pose proof (rows_before_apart es i j e He Hij) as Hap.
    unfold rows_used in Hap. lia.
Qed.

(** ** The same response again *)

Lemma written_twice r col v l :
  written r col v (written r col v l) = written r col v l.
Proof. by destruct v. Qed.

Lemma label_after_twice e r c l :
  label_after e r c (label_after e r c l) = label_after e r c l.
Proof.
  unfold label_after. destruct (passed _ e); [|done].
  destruct (reason_wanted c e); [|done].
  destruct (column_text c e); [|done]. apply written_twice.
Qed.

Lemma status_after_grid r col l e :
  status_after (Label_grid r col l) e = Label_grid r col (status_after l e).
Proof. unfold status_after. by destruct (body_result e) as [|[]]. Qed.

Lemma foldl_status_after_grid es : ∀ r col l,
  foldl status_after (Label_grid r col l) es =
  Label_grid r col (foldl status_after l es).
Proof.
  induction es as [|e es IH]; intros r col l; [done|].
  simpl. by rewrite status_after_grid, IH.
Qed.

Lemma status_after_lacks_key l e :
  status_after l e =
  if lacks_key e
  then match body_result e with
       | Raise (KeyError k) =>
           mkLabel (PyStr ("Unknown data key " +:+ k)) (grid_info l)
       | _ => l
       end
  else l.
Proof.
  unfold status_after, lacks_key. by destruct (body_result e) as [|[]].
Qed.

(** The status bar after the loop does not depend on its text before, once
    a service of the loop lacks a key. *)
Lemma foldl_status_after_forgets es : ∀ l l',
  grid_info l = grid_info l' → existsb lacks_key es = true →
  foldl status_after l es = foldl status_after l' es.
Proof.
  induction es as [|e es IH]; intros l l' Hg Hex; [done|].
  simpl in *. destruct (lacks_key e) eqn:He.
  - f_equal. rewrite !status_after_lacks_key, He.
    unfold lacks_key in He.
    destruct (body_result e) as [|[]]; try done. by rewrite Hg.
  - rewrite !status_after_lacks_key, He. by apply IH.
Qed.

Lemma foldl_status_after_none es : ∀ l,
  existsb lacks_key es = false → foldl status_after l es = l.
Proof.
  induction es as [|e es IH]; intros l Hex; [done|].
  simpl in *. apply orb_false_elim in Hex as [He Hex].
  rewrite status_after_lacks_key, He. by apply IH.
Qed.

Lemma foldl_status_after_grid_info es : ∀ l,
  grid_info (foldl status_after l es) = grid_info l.
Proof.
  induction es as [|e es IH]; intros l; [done|].
  simpl. rewrite IH, status_after_lacks_key.
  destruct (lacks_key e); [|done]. by destruct (body_result e) as [|[]].
Qed.

Lemma foldl_status_after_twice es l :
  foldl status_after (foldl status_after l es) es = foldl status_after l es.
Proof.
  destruct (existsb lacks_key es) eqn:Hex.
  - apply foldl_status_after_forgets; [|done].
    apply foldl_status_after_grid_info.
  - by rewrite !foldl_status_after_none.
Qed.

Lemma Label_grid_twice r col l :
  Label_grid r col (Label_grid r col l) = Label_grid r col l.
Proof. done. Qed.

(** X11: a refresh with the response that was just shown changes
    nothing.  With services on which the body ends normally or with a
    [KeyError], on a display whose shown slots were a prefix, the second
    refresh with the same response returns normally and leaves the title,
    the status bar, the Esc hint, the clock and every label of every list
    as the first refresh left them. *)
Theorem refreshing_twice_is_refreshing_once g es d m :
  service_numrows ≤ 10 → ten_labels d →
  prefix_shown d m → m ≤ service_numrows →
  has_services g es → title_ready g d →
  Forall tolerated es → length es ≤ service_numrows →
  let d1 := refresh d (Some g) in
  let d2 := refresh d1 (Some g) in
  (display_info (Some g) d1).1 = Ok tt
  ∧ title d2 = title d1
  ∧ statusbar d2 = statusbar d1
  ∧ Esc_to_exit d2 = Esc_to_exit d1
  ∧ curtime d2 = curtime d1
  ∧ ∀ c, disp d2 c = disp d1 c.
Proof.
  intros Hrows Hten Hp Hm Hg Ht Hall Hlen d1 d2.
  pose proof (display_info_hides_rest g es d m Hrows Hten Hp Hm Hg Ht
                Hall Hlen) as Hhid.
  fold d1 in Hhid.
  destruct (display_info_tolerated g es d) as
    (d1' & Hrun & Hten1 & Ht1 & Hs1 & Hx1 & Hc1 & Hl1);
    [done|done|done|done|lia|done|].
  assert (d1 = d1') as Hd1 by (unfold d1, refresh; by rewrite Hrun).
  rewrite <- Hd1 in Hten1, Ht1, Hs1, Hx1, Hc1, Hl1. clear Hrun Hd1 d1'.
  assert (title_after g (title d1) = title d1 ∧ title_ready g d1)
    as [Htt Ht'].
  { unfold title_after, title_ready in *.
    destruct (String.eqb (title d) "tk") eqn:Htk.
    - apply String.eqb_eq in Htk. specialize (Ht Htk).
      destruct (getitem (PyDict g) "locationName") as [n|]; [|done].
      rewrite Ht1. split; [done|]. by intros Hd1.
    - rewrite Ht1, Htk. split; [done|]. intros Hd1.
      rewrite Hd1 in Htk. done. }
  destruct (display_info_tolerated g es d1) as
    (d2' & Hrun2 & _ & Ht2 & Hs2 & Hx2 & Hc2 & Hl2);
    [done|done|done|done|lia|done|].
  assert (d2 = d2') as Hd2 by (unfold d2, refresh; by rewrite Hrun2).
  rewrite <- Hd2 in Ht2, Hs2, Hx2, Hc2, Hl2.
  split; [by rewrite Hrun2|]. split; [congruence|].
  split.
  { rewrite Hs2, Hs1, foldl_status_after_grid, foldl_status_after_twice.
    apply Label_grid_twice. }
  split; [by rewrite Hx2, Hx1|]. split; [congruence|].
  intros c. apply list_eq. intros j. rewrite Hl2.
  assert (shown_run d1 (service_numrows - length es) (length es) = 0) as ->.
  { destruct (service_numrows - length es) as [|n] eqn:Hn; [done|].
    cbn [shown_run]. by rewrite Hhid by lia. }
  rewrite decide_False by lia.
  destruct (decide (j < length es)) as [Hj|Hj].
  - rewrite Hl1, decide_False by lia. unfold slot_after.
    rewrite decide_True by lia.
    destruct (es !! (j - 0)) as [e|]; [|done].
    destruct (disp d c !! j) as [l|]; [|done].
    simpl. by rewrite label_after_twice.
  - by rewrite slot_after_beyond by (simpl; lia).
Qed.

(** ** The messages of the first call *)

(** X12: the messages of the first response are read outside any [try].
    When that response lacks [nrccMessages], or its messages cannot be
    joined, the first call of [update_display] raises that exception and the
    program ends before the main loop: no dialog was shown, no timer is
    set, and [display_info] was not called.  A timer tick does not read
    the messages: its display always goes through [display_info]. *)
Theorem unreadable_messages_end_the_program_at_start g now evs x :
  match getitem (PyDict g) "nrccMessages" with
  | Ok nrcc => is_None nrcc = false ∧ service_messages nrcc = Raise x
  | Raise y => y = x
  end →
  (∃ a, main (Returns (Some g)) now evs = (Raise x, a)
     ∧ after_queue a = [] ∧ dialogs a = [] ∧ requests a = 1
     ∧ display a = statusbar_text "OK" DisplayApp_init)
  ∧ ∀ a0, display (update_display false (Returns (Some g)) a0).2 =
          refresh (statusbar_text "OK" (display a0)) (Some g).
Proof.
  intros H. split.
  - unfold main, update_display, getServiceInfo, GetDepartureBoard,
      send_request.
    unfold bind, on_display, ret, gets, lift, showinfo, modify.
    cbn [App_init display Running after_queue destroyed requests dialogs].
    destruct (getitem (PyDict g) "nrccMessages") as [nrcc|y].
    + destruct H as [-> ->]. by eexists.
    + subst y. by eexists.
  - intros a0.
    by destruct (update_display_display false (Returns (Some g)) a0)
      as [?|(_ & ? & _)].
Qed.

(** ** The configuration *)

Lemma config_KeyError_None config section opt :
  config_KeyError config section opt = None ↔
  has_option config section opt = true.
Proof.
  unfold config_KeyError, has_option.
  destruct (config !! section) as [s|]; [|done].
  destruct (s !! opt) as [v|] eqn:Hv.
  - split; [|done]. intros _. apply bool_decide_eq_true. by eexists.
  - split; [done|]. intros H. apply bool_decide_eq_true in H.
    by destruct H.
Qed.

(** X13: the program gets to its display only with the three options it
    needs.  Whenever the start reaches the call of [DisplayApp], the
    configuration has [station/crs], [SOAP/key] and [SOAP/wsdl], and the
    colours are those of the configuration, or black, white and yellow
    where it has none. *)
Theorem start_needs_the_three_options config client bg head item :
  start (Some config) client = Starts bg head item →
  has_option config "station" "crs" = true
  ∧ has_option config "SOAP" "key" = true
  ∧ has_option config "SOAP" "wsdl" = true
  ∧ bg = option_or config "display" "bgcolour" "black"
  ∧ head = option_or config "display" "headfgcolour" "white"
  ∧ item = option_or config "display" "itemfgcolour" "yellow".
Proof.
  unfold start, key_missing.
  destruct (config_KeyError config "SOAP" "wsdl") as [k|] eqn:Hw;
    [by destruct (_ && _)|].
  apply config_KeyError_None in Hw. rewrite Hw, andb_true_r.
  destruct (has_option config "station" "crs"); [|done].
  destruct (has_option config "SOAP" "key"); [|done].
  simpl. destruct client; [|done].
  destruct (config_KeyError config "SOAP" "key"); [done|].
  by intros [= <- <- <-].
Qed.

(** X14: a configuration without [SOAP/wsdl] is let through by the test
    of the main code, whatever else it lacks: the message about a missing
    key is not printed, and the program dies of the [KeyError] that
    [OpenLDBWSApp.__init__] meets when it reads the section or the option. *)
Theorem missing_wsdl_is_not_reported config client :
  has_option config "SOAP" "wsdl" = false →
  key_missing config = false
  ∧ start (Some config) client =
    Dies (KeyError (match config !! "SOAP" with
                    | Some _ => "'wsdl'"
                    | None => "'SOAP'"
                    end)).
Proof.
  intros H. unfold start, key_missing. rewrite H, andb_false_r.
  split; [done|].
  unfold config_KeyError, has_option in *.
  destruct (config !! "SOAP") as [s|]; [|done].
  destruct (s !! "wsdl") as [v|] eqn:Hv; [|done].
  apply bool_decide_eq_false in H. destruct H. by eexists.
Qed.

(** X15: the option [display/rows] is not asked for at the start and yet
    needed by every call of the service.  Without it the call is never
    made: the [KeyError] of the argument is caught in [getServiceInfo], the
    count of the calls stays as it was, and every refresh ends with
    "No data received" in the status bar and no label touched. *)
Theorem missing_rows_gives_no_data config net dm a :
  has_option config "display" "rows" = false →
  let t := call_attempt config None net in
  (∃ k, t = Not_called k)
  ∧ (update_display dm t a).1 = Ok tt
  ∧ requests (update_display dm t a).2 = requests a
  ∧ text (statusbar (display (update_display dm t a).2)) =
    PyStr "No data received"
  ∧ ∀ c, disp (display (update_display dm t a).2) c = disp (display a) c.
Proof.
  intros H t. unfold t, call_attempt.
  destruct (config_KeyError config "display" "rows") as [k|] eqn:Hk.
  2:{ apply config_KeyError_None in Hk. congruence. }
  split; [by exists k|].
  unfold update_display, getServiceInfo, GetDepartureBoard, send_request,
    with_display.
  unfold bind, on_display, ret, gets, lift, after, destroy, modify.
  cbn [display Running after_queue destroyed requests dialogs fst snd].
  unfold display_info, display_info_frame, check_data.
  unfold bind, on_self, ret, gets, modify.
  cbn [display Running after_queue destroyed requests dialogs fst snd self].
  by destruct (Running a).
Qed.

End Board.

(** * The properties on sample data *)

(** ** Where the code departs from a claim *)

(** C1 fails on a display that a response with a missing field left
    behind.  After the services [on_time; no_std; on_time] slot 1 is off the
    grid and slot 2 is on it; a response with the single service [on_time]
    then returns normally, the blanking stops at slot 1, and slot 2 is
    still on the grid at the end of the refresh.  It also fails when twelve
    rows are configured and ten services come: the blanking reaches for an
    eleventh label and [display_info] raises. *)
Lemma slot_left_on_grid_behind_hidden_slot :
  let d1 := refresh 10 no_str DisplayApp_init
              (Some (response_of [on_time; no_std; on_time])) in
  let g := response_of [on_time] in
  (display_info 10 no_str (Some g) d1).1 = Ok tt
  ∧ showing (refresh 10 no_str d1 (Some g)) (time_disp, 1) = false
  ∧ showing (refresh 10 no_str d1 (Some g)) (time_disp, 2) = true
  ∧ (display_info 12 no_str (Some (response_of (replicate 10 on_time)))
                  DisplayApp_init).1 = Raise IndexError.
Proof. vm_compute. done. Qed.

(** C2 fails on eleven services: [display_info] raises [IndexError]. *)
Lemma eleven_services_raise :
  (display_info 10 no_str (Some (response_of (replicate 11 on_time)))
                DisplayApp_init).1 = Raise IndexError.
Proof. vm_compute. done. Qed.

(** C4 fails on a service that is not cancelled and carries a cancel
    reason beside its delay reason: the delay row is not shown. *)
Lemma delay_row_hidden_by_cancel_reason :
  let d1 := refresh 10 no_str DisplayApp_init
              (Some (response_of [running_with_cancel_reason])) in
  getitem running_with_cancel_reason "isCancelled" = Ok (PyBool false)
  ∧ getitem running_with_cancel_reason "delayReason" =
    Ok (PyStr "a late running train")
  ∧ showing d1 (time_disp, 0) = true
  ∧ showing d1 (delayreason_disp, 0) = false.
Proof. vm_compute. done. Qed.


(** C7 fails on the request: after the window is closed the refresh timer
    fires once more and calls the service before it destroys the window. *)
Lemma one_more_request_after_stop :
  let o := Returns (Some (response_of [on_time])) in
  let a := (main 10 no_str o "10:00:00" [window_close]).2 in
  let a' := dispatch 10 no_str a (timer_update_display o) in
  Running a = false
  ∧ requests a' = S (requests a)
  ∧ destroyed a' = true.
Proof. vm_compute. done. Qed.

(** ** The theorems at work *)

Lemma has_services_response_of l : has_services (response_of l) l.
Proof. by exists (PyDict [("service", PyList l)]), (PyList l). Qed.

Lemma title_ready_response_of l d : title_ready (response_of l) d.
Proof. by intros _. Qed.

(** C1 on the first response of a run: two services on the fresh display. *)
Lemma complete_services_fill_first_rows_witness :
  ∃ d', display_info 10 no_str
          (Some (response_of [on_time; cancelled_service])) DisplayApp_init
        = (Ok tt, d')
    ∧ prefix_shown d' 2.
Proof.
  destruct (complete_services_fill_first_rows 10 no_str
              (response_of [on_time; cancelled_service])
              [on_time; cancelled_service] DisplayApp_init 0)
    as (d' & H & _ & Hp & _).
  - lia.
  - apply ten_labels_init.
  - apply prefix_shown_init.
  - lia.
  - apply has_services_response_of.
  - apply title_ready_response_of.
  - repeat constructor.
  - simpl. lia.
  - exists d'. split; [exact H|exact Hp].
Defined.

(** C2 on eleven services. *)
Lemma more_services_than_labels_raise_witness :
  ∃ x d', display_info 10 no_str (Some (response_of (replicate 11 on_time)))
            DisplayApp_init = (Raise x, d').
Proof.
  apply (more_services_than_labels_raise 10 no_str
           (response_of (replicate 11 on_time)) (replicate 11 on_time)
           DisplayApp_init).
  - apply ten_labels_init.
  - apply has_services_response_of.
  - apply title_ready_response_of.
  - simpl. lia.
Defined.

(** C3 after a refresh that showed the 10:15 to Paddington: without a
    response its row stays on the grid, in the cells of row 2 where the
    status bar is put; a response with an empty list of services takes it
    off the grid. *)
Lemma no_data_leaves_the_rows_witness :
  let d1 := refresh 10 no_str DisplayApp_init (Some (response_of [on_time])) in
  let d' := refresh 10 no_str d1 None in
  text (statusbar d') = PyStr "No data received"
  ∧ grid_info (statusbar d') = Some (2, 0)
  ∧ grid_info <$> disp d' time_disp !! 0 = Some (Some (2, 0))
  ∧ (∀ c j, j < 10 →
       showing (refresh 10 no_str d1 (Some (response_of []))) (c, j) = false).
Proof.
  intros d1 d'.
  destruct (no_data_leaves_the_rows 10 no_str None d1 I)
    as [(d0 & Hrun & Ht & Hg & _ & _ & Hl) Hsib].
  assert (d' = d0) as Hd' by (unfold d', refresh; rewrite Hrun; reflexivity).
  rewrite Hd'.
  split; [exact Ht|]. split; [exact Hg|]. split.
  { rewrite Hl. vm_compute. reflexivity. }
  destruct (Hsib (response_of []) 1) as (d2 & Hrun2 & Hhide & _).
  - apply display_info_any, ten_labels_init.
  - lia.
  - intros j Hj.
    do 10 (destruct j as [|j];
           [split; intros H;
            first [ vm_compute; reflexivity | lia
                  | intros c; destruct c; vm_compute; reflexivity ]|]).
    lia.
  - lia.
  - apply has_services_response_of.
  - apply title_ready_response_of.
  - intros c j Hj. unfold refresh. rewrite Hrun2. apply Hhide. exact Hj.
Defined.

(** C4 on a cancelled service that carries both reasons. *)
Lemma reason_rows_follow_the_cancel_reason_witness :
  let d' := (display_info 10 no_str (Some (response_of [cancelled_service]))
               DisplayApp_init).2 in
  showing d' (cancelreason_disp, 0) = true
  ∧ showing d' (delayreason_disp, 0) = false.
Proof.
  apply (reason_rows_follow_the_cancel_reason 10 no_str
           (response_of [cancelled_service]) [cancelled_service]
           DisplayApp_init 0 cancelled_service (PyBool true)
           (PyStr "a shortage of train crew")).
  - apply ten_labels_init.
  - apply has_services_response_of.
  - apply title_ready_response_of.
  - repeat constructor.
  - simpl. lia.
  - reflexivity.
  - reflexivity.
  - reflexivity.
  - reflexivity.
  - reflexivity.
  - reflexivity.
Defined.


(** C7 on a run in which the window is closed after the first refresh. *)
Lemma stop_flag_lets_one_refresh_run_witness :
  let o := Returns (Some (response_of [on_time])) in
  let a := (main 10 no_str o "10:00:00" [window_close]).2 in
  let evs' := [timer_update_time "10:00:01"; timer_update_display o;
               timer_update_display o] in
  Running (mainloop 10 no_str a evs') = false
  ∧ after_queue (mainloop 10 no_str a evs') `sublist_of` after_queue a
  ∧ requests (mainloop 10 no_str a evs') ≤ S (requests a).
Proof.
  intros o a evs'.
  destruct (stop_flag_lets_one_refresh_run 10 no_str o "10:00:00"
              [window_close] a evs') as (H1 & H2 & H3 & _).
  - vm_compute. reflexivity.
  - vm_compute. reflexivity.
  - split; [exact H1|]. split; [exact H2|exact H3].
Defined.

(** C9 on a run of refreshes: no response leaves the placeholder, the first
    response for Reading sets the title, and no refresh after it changes
    the title, not even one with a response for Oxford. *)
Lemma title_is_set_once_witness :
  let g := response_of [on_time] in
  let d1 := refresh 10 no_str DisplayApp_init (Some g) in
  let rs := [None; Some (oxford_response [on_time]); Some g] in
  title (refresh 10 no_str DisplayApp_init None) = "tk"
  ∧ title d1 = "Departures from Reading"
  ∧ title (foldl (refresh 10 no_str) d1 rs) = "Departures from Reading"
  ∧ title (foldl (refresh 10 no_str) d1 rs) = title d1.
Proof.
  intros g d1 rs.
  destruct (title_is_set_once 10 no_str DisplayApp_init rs ten_labels_init)
    as (_ & H2 & H3).
  destruct (H3 eq_refl g (PyStr "Reading") eq_refl eq_refl) as [H4 H5].
  destruct (title_is_set_once 10 no_str d1 rs) as (H1 & _).
  { apply display_info_any, ten_labels_init. }
  split; [exact (H2 eq_refl None I)|].
  split; [exact H4|]. split; [exact H5|].
  apply H1. unfold d1. rewrite H4. discriminate.
Defined.

(** C10 on a service without [etd], in the first slot: the labels of the
    time, the destination and the platform carry the new service on row 2,
    the labels of the expected time and of the cars are as they were. *)
Lemma missing_field_keeps_partial_row_witness :
  ∃ fr', service_turn no_etd (mkFrame DisplayApp_init 2 0) = (Ok tt, fr')
    ∧ row_listindex fr' = 1
    ∧ display_row fr' = 3
    ∧ text (statusbar (self fr')) = PyStr "Unknown data key 'etd'"
    ∧ disp (self fr') time_disp !! 0 =
      Some (written 2 0 (PyStr "10:40") new_Label)
    ∧ disp (self fr') dest_disp !! 0 =
      Some (written 2 1 (PyStr "Bath") new_Label)
    ∧ disp (self fr') plat_disp !! 0 =
      Some (written 2 2 (PyStr "7") new_Label)
    ∧ disp (self fr') expt_disp !! 0 = Some new_Label
    ∧ disp (self fr') cars_disp !! 0 = Some new_Label.
Proof.
  destruct (missing_field_keeps_partial_row no_etd
              (mkFrame DisplayApp_init 2 0) "'etd'")
    as (fr' & H1 & H2 & H3 & H4 & _ & n & Hn & Hst & Hp & Hl & _).
  - split; [apply ten_labels_init|simpl; lia].
  - reflexivity.
  - assert (n = 3) as Hn3.
    { do 3 (destruct n as [|n]; [vm_compute in Hst; discriminate Hst|]).
      destruct n as [|n]; [reflexivity|].
      vm_compute in Hp. discriminate Hp. }
    rewrite Hn3 in Hl.
    exists fr'. split; [exact H1|]. split; [exact H2|]. split; [exact H3|].
    split; [exact H4|].
    split; [exact (Hl time_disp new_Label eq_refl)|].
    split; [exact (Hl dest_disp new_Label eq_refl)|].
    split; [exact (Hl plat_disp new_Label eq_refl)|].
    split; [exact (Hl expt_disp new_Label eq_refl)|].
    exact (Hl cars_disp new_Label eq_refl).
Defined.

(** ** The further properties at work *)

(** X4 on a run with clock ticks, refresh ticks and the Return key. *)
Lemma only_a_stop_event_ends_the_run_witness :
  let o := Returns (Some (response_of [on_time])) in
  let a := (main 10 no_str o "10:00:00" []).2 in
  let evs := [timer_update_time "10:00:01"; key_event 36;
              timer_update_display o] in
  Running (mainloop 10 no_str a evs) = true
  ∧ destroyed (mainloop 10 no_str a evs) = false.
Proof.
  intros o a evs.
  apply (only_a_stop_event_ends_the_run 10 no_str evs a).
  - vm_compute. reflexivity.
  - vm_compute. reflexivity.
  - repeat constructor.
Defined.

(** X5 on a refresh tick that receives eleven services. *)
Lemma refresh_that_raises_is_the_last_witness :
  let o := Returns (Some (response_of [on_time])) in
  let o' := Returns (Some (response_of (replicate 11 on_time))) in
  let a := (main 10 no_str o "10:00:00" []).2 in
  let a' := mainloop 10 no_str (dispatch 10 no_str a (timer_update_display o'))
              [window_close; timer_update_time "10:00:16";
               timer_update_display o] in
  requests a' = S (requests a) ∧ destroyed a' = false.
Proof.
  intros o o' a.
  apply (refresh_that_raises_is_the_last 10 no_str o "10:00:00" [] a o'
           [cb_update_time] IndexError).
  - vm_compute. reflexivity.
  - vm_compute. reflexivity.
  - vm_compute. reflexivity.
  - vm_compute. reflexivity.
Defined.

(** X6 on the fresh display. *)
Lemma missing_station_name_raises_before_drawing_witness :
  display_info 10 no_str (Some nameless_response) DisplayApp_init =
  (Raise (KeyError "'locationName'"), DisplayApp_init).
Proof.
  apply (missing_station_name_raises_before_drawing 10 no_str
           nameless_response DisplayApp_init (KeyError "'locationName'")).
  - reflexivity.
  - reflexivity.
  - reflexivity.
Defined.

(** X7 on the fresh display. *)
Lemma unreadable_service_list_raises_before_drawing_witness :
  display_info 10 no_str (Some serviceless_response) DisplayApp_init =
  (Raise (KeyError "'service'"),
   set_title (title_after no_str serviceless_response "tk") DisplayApp_init).
Proof.
  apply (unreadable_service_list_raises_before_drawing 10 no_str
           serviceless_response (PyDict []) DisplayApp_init
           (KeyError "'service'")).
  - reflexivity.
  - reflexivity.
  - intros _. reflexivity.
  - reflexivity.
Defined.

(** X8 on a cancelled service without platform and number of cars, in the
    slot that the 10:15 to Paddington had. *)
Lemma absent_platform_is_blank_absent_length_is_stale_witness :
  let d := refresh 10 no_str DisplayApp_init (Some (response_of [on_time])) in
  let d' := refresh 10 no_str d (Some (response_of [cancelled_service])) in
  text <$> disp d' plat_disp !! 0 = Some (PyStr "")
  ∧ text <$> disp d' cars_disp !! 0 = text <$> disp d cars_disp !! 0.
Proof.
  intros d d'.
  destruct (absent_platform_is_blank_absent_length_is_stale 10 no_str
              (response_of [cancelled_service]) [cancelled_service] d 0
              cancelled_service) as (H1 & H2 & _).
  - apply display_info_any, ten_labels_init.
  - apply has_services_response_of.
  - apply title_ready_response_of.
  - repeat constructor.
  - simpl. lia.
  - reflexivity.
  - reflexivity.
  - split; [exact (H1 eq_refl)|exact (H2 eq_refl)].
Defined.

(** X9 on the first state of the program. *)
Lemma refresh_of_complete_services_reads_OK_witness :
  (update_display 10 no_str false (Returns (Some (response_of [on_time])))
                  App_init).1 = Ok tt
  ∧ text (statusbar (display
      (update_display 10 no_str false
         (Returns (Some (response_of [on_time]))) App_init).2))
    = PyStr "OK".
Proof.
  apply (refresh_of_complete_services_reads_OK 10 no_str
           (response_of [on_time]) [on_time] App_init).
  - apply ten_labels_init.
  - lia.
  - apply has_services_response_of.
  - apply title_ready_response_of.
  - repeat constructor.
  - simpl. lia.
Defined.

(** X10 on two services, the second with a cancel row. *)
Lemma service_rows_are_apart_and_above_the_status_bar_witness :
  let d' := refresh 10 no_str DisplayApp_init
              (Some (response_of [cancelled_service; on_time])) in
  grid_info (statusbar d') =
  Some (2 + rows_before [cancelled_service; on_time] 2, 0).
Proof.
  intros d'.
  destruct (service_rows_are_apart_and_above_the_status_bar 10 no_str
              (response_of [cancelled_service; on_time])
              [cancelled_service; on_time] DisplayApp_init 0)
    as (H & _).
  - lia.
  - apply ten_labels_init.
  - apply prefix_shown_init.
  - lia.
  - apply has_services_response_of.
  - apply title_ready_response_of.
  - repeat constructor.
  - simpl. lia.
  - exact H.
Defined.

(** X11 on a service without [etd] followed by one with all its fields. *)
Lemma refreshing_twice_is_refreshing_once_witness :
  let d1 := refresh 10 no_str DisplayApp_init
              (Some (response_of [no_etd; on_time])) in
  let d2 := refresh 10 no_str d1 (Some (response_of [no_etd; on_time])) in
  statusbar d2 = statusbar d1 ∧ ∀ c, disp d2 c = disp d1 c.
Proof.
  intros d1 d2.
  destruct (refreshing_twice_is_refreshing_once 10 no_str
              (response_of [no_etd; on_time]) [no_etd; on_time]
              DisplayApp_init 0) as (_ & _ & H1 & _ & _ & H2).
  - lia.
  - apply ten_labels_init.
  - apply prefix_shown_init.
  - lia.
  - apply has_services_response_of.
  - apply title_ready_response_of.
  - constructor; [right; by exists "'etd'"|].
    constructor; [by left|constructor].
  - simpl. lia.
  - split; [exact H1|exact H2].
Defined.

(** X12 on a first response with a message without [_value_1]. *)
Lemma unreadable_messages_end_the_program_at_start_witness :
  ∃ a, main 10 no_str (Returns (Some broken_messages_response)) "10:00:00" []
       = (Raise (KeyError "'_value_1'"), a)
    ∧ after_queue a = [] ∧ dialogs a = [] ∧ requests a = 1
    ∧ display a = statusbar_text "OK" DisplayApp_init.
Proof.
  apply (unreadable_messages_end_the_program_at_start 10 no_str
           broken_messages_response "10:00:00" [] (KeyError "'_value_1'")).
  split; reflexivity.
Defined.

(** X13 on the configuration with the three options alone. *)
Lemma start_needs_the_three_options_witness :
  has_option bare_config "station" "crs" = true
  ∧ has_option bare_config "SOAP" "key" = true
  ∧ has_option bare_config "SOAP" "wsdl" = true
  ∧ "black" = option_or bare_config "display" "bgcolour" "black"
  ∧ "white" = option_or bare_config "display" "headfgcolour" "white"
  ∧ "yellow" = option_or bare_config "display" "itemfgcolour" "yellow".
Proof.
  apply (start_needs_the_three_options bare_config true
           "black" "white" "yellow").
  vm_compute. reflexivity.
Defined.

(** X14 on a configuration without WSDL address and without station. *)
Lemma missing_wsdl_is_not_reported_witness :
  key_missing no_wsdl_config = false
  ∧ start (Some no_wsdl_config) true =
    Dies (KeyError (match no_wsdl_config !! "SOAP" with
                    | Some _ => "'wsdl'"
                    | None => "'SOAP'"
                    end)).
Proof.
  apply (missing_wsdl_is_not_reported no_wsdl_config true).
  vm_compute. reflexivity.
Defined.

(** X15 on the configuration with the three options alone, which starts
    the program and has no [display/rows]. *)
Lemma missing_rows_gives_no_data_witness :
  let o := call_attempt bare_config None
             (Returns (Some (response_of [on_time]))) in
  (∃ k, o = Not_called k)
  ∧ (update_display 10 no_str false o App_init).1 = Ok tt
  ∧ requests (update_display 10 no_str false o App_init).2 = 0
  ∧ text (statusbar (display (update_display 10 no_str false o App_init).2)) =
    PyStr "No data received"
  ∧ ∀ c, disp (display (update_display 10 no_str false o App_init).2) c =
         disp (display App_init) c.
Proof.
  apply (missing_rows_gives_no_data 10 no_str bare_config
           (Returns (Some (response_of [on_time]))) false App_init).
  vm_compute. reflexivity.
Defined.
